(** * Dynamic QR attendance backend (src/server.js)

    A shallow embedding of the attendance routes, the daily cron job and the
    teacher logout route, together with the properties the specification
    states about them.

    Collections are lists of documents in insertion order.  A document's
    position in its collection plays the role of its [_id]: documents are
    never deleted, so positions are stable, [findOne] returns the first
    match together with its position, and [doc.save()] on a document that
    was read from the collection writes back at that position. *)

From Stdlib Require Import ZArith Ascii Sorting.Sorted Sorting.Permutation.
From stdpp Require Import base list strings pretty.
From stdpp Require Import relations.

Local Open Scope Z_scope.

(** ** Schemas and models *)

(** [enum: ['present', 'absent']] *)
Inductive Status := present | absent.

#[global] Instance Status_eq_dec : EqDecision Status.
Proof. solve_decision. Defined.

(** A [required: true] string path is rejected by the model's validation
    when it is empty (or missing; the empty string stands for both). *)
Definition required (s : string) : bool := negb (bool_decide (s = "")).

Module Attendance.
Record t := mk {
  regNumber : string;
  subject : string;
  date : string;
  status : Status;
  scoreChange : Z
}.

#[global] Instance attendance_eq_dec : EqDecision t.
Proof. solve_decision. Defined.

Definition valid (d : t) : bool :=
  required (regNumber d) && required (subject d) && required (date d).

(** The lookup key used by every query of the attendance routes. *)
Definition key (d : t) : string * string * string :=
  (regNumber d, subject d, date d).

(** [Attendance.findOne({ regNumber, subject, date })] *)
Definition findOne (regNumber subject date : string) (coll : list t)
  : option (nat * t) :=
  list_find (λ d, key d = (regNumber, subject, date)) coll.

(** [Attendance.find({ regNumber })] *)
Definition find (reg : string) (coll : list t) : list t :=
  filter (λ d, regNumber d = reg) coll.
End Attendance.

Module QrSession.
Record t := mk {
  subject : string;
  qrId : string;
  createdAt : Z;
  expiresAt : Z
}.

#[global] Instance qrsession_eq_dec : EqDecision t.
Proof. solve_decision. Defined.

Definition valid (q : t) : bool := required (subject q) && required (qrId q).

(** [QrSession.findOne({ qrId })] *)
Definition findOne (id : string) (coll : list t) : option (nat * t) :=
  list_find (λ q, qrId q = id) coll.
End QrSession.

Module Teacher.
Record t := mk {
  email : string;
  password : string;
  tokens : list string
}.

#[global] Instance teacher_eq_dec : EqDecision t.
Proof. solve_decision. Defined.

Definition valid (x : t) : bool := required (email x) && required (password x).

(** [Teacher.findById(id)] *)
Definition findById (id : nat) (coll : list t) : option t := coll !! id.
End Teacher.

Module Student.
Record t := mk {
  regNumber : string;
  password : string
}.
End Student.

Module Subject.
Record t := mk {
  name : string;
  teacherEmail : string
}.
End Subject.

(** The database: one collection per model. *)
Record Store := mkStore {
  Teachers : list Teacher.t;
  Students : list Student.t;
  Subjects : list Subject.t;
  Attendances : list Attendance.t;
  QrSessions : list QrSession.t
}.

Definition set_Attendances (f : list Attendance.t → list Attendance.t) (st : Store) : Store :=
  mkStore (Teachers st) (Students st) (Subjects st) (f (Attendances st)) (QrSessions st).

Definition set_Teachers (f : list Teacher.t → list Teacher.t) (st : Store) : Store :=
  mkStore (f (Teachers st)) (Students st) (Subjects st) (Attendances st) (QrSessions st).

Definition set_QrSessions (f : list QrSession.t → list QrSession.t) (st : Store) : Store :=
  mkStore (Teachers st) (Students st) (Subjects st) (Attendances st) (f (QrSessions st)).

(** ** Handlers as store-passing computations that may throw *)

Inductive Error :=
  ValidationError | DuplicateKeyError | StoreError | CastError | IllegalArguments.

Inductive Result (A : Type) := Ok (a : A) | Throw (e : Error).
Arguments Ok {A} a.
Arguments Throw {A} e.

(** An awaited operation: it runs against the store and either yields a
    value or rejects.  What was written before a rejection stays written. *)
Definition M (A : Type) : Type := Store → Result A * Store.

#[global] Instance M_ret : MRet M := λ A a st, (Ok a, st).

#[global] Instance M_bind : MBind M := λ A B f m st,
  match m st with
  | (Ok a, st') => f a st'
  | (Throw e, st') => (Throw e, st')
  end.

Definition throw {A} (e : Error) : M A := λ st, (Throw e, st).
Definition gets {A} (f : Store → A) : M A := λ st, (Ok (f st), st).
Definition modify (f : Store → Store) : M unit := λ st, (Ok tt, f st).

(** [try { body } catch { handler }] *)
Definition try_catch {A} (body : M A) (handler : Error → M A) : M A := λ st,
  match body st with
  | (Ok a, st') => (Ok a, st')
  | (Throw e, st') => handler e st'
  end.

(** [for (let x of xs) { body }] *)
Fixpoint for_of {A} (xs : list A) (body : A → M unit) : M unit :=
  match xs with
  | [] => mret tt
  | x :: xs' => _ ← body x; for_of xs' body
  end.

(** ** Responses *)

Inductive Json :=
| JMessage (message : string)
| JMessageRecord (message : string) (record : Attendance.t)
| JRecords (records : list Attendance.t)
| JSession (message : string) (qrId : string) (expiresAt : Z).

Record Response := json { statusCode : Z; body : Json }.

#[global] Instance Json_eq_dec : EqDecision Json.
Proof. solve_decision. Defined.
#[global] Instance Response_eq_dec : EqDecision Response.
Proof. solve_decision. Defined.

(** The outcomes of the specification, as the responses the routes send. *)
Definition MissingData : Response := json 400 (JMessage "Missing data").
Definition InvalidQr : Response := json 400 (JMessage "Invalid QR").
Definition ExpiredQr : Response := json 400 (JMessage "QR expired").
Definition AlreadyMarked : Response := json 200 (JMessage "Already marked present today").
Definition Marked (record : Attendance.t) : Response :=
  json 200 (JMessageRecord "Attendance marked (+1)" record).
Definition ServerError : Response := json 500 (JMessage "Server error").
Definition AbsentRecorded : Response := json 200 (JMessage "Absent recorded (-3)").
Definition AlreadyAbsent : Response := json 200 (JMessage "Already absent today").
Definition NoPenalty : Response := json 200 (JMessage "Present — no penalty").
Definition LogoutSuccessful : Response := json 200 (JMessage "Logout successful").
Definition NoTokenProvided : Response := json 401 (JMessage "No token provided").
Definition InvalidToken : Response := json 401 (JMessage "Invalid token").
Definition InvalidOrExpiredToken : Response := json 401 (JMessage "Invalid or expired token").
Definition SubjectRequired : Response := json 400 (JMessage "Subject required").
Definition SessionCreated (qrId : string) (expiresAt : Z) : Response :=
  json 200 (JSession "QR session created" qrId expiresAt).
Definition History (records : list Attendance.t) : Response := json 200 (JRecords records).

(** ** Request bodies *)

(** A field of a JSON body read as a string; an absent field and the empty
    string are both falsy and both fail [required], so [""] stands for
    either. *)
Definition falsy (s : string) : bool := bool_decide (s = "").

Record MarkBody := mkMarkBody {
  mark_regNumber : string;
  mark_subject : string;
  mark_qrId : string
}.

Record DecrementBody := mkDecrementBody {
  dec_regNumber : string;
  dec_subject : string
}.

(** Everything the persistence layer is asked to write. *)
Inductive WriteOp :=
| WAttendance (d : Attendance.t)
| WTeacher (x : Teacher.t)
| WQrSession (q : QrSession.t).

(** ** Helpers standing for JavaScript built-ins *)

(** [s.split(sep)] for a one-character separator. *)
Fixpoint split (sep : ascii) (s : string) : list string :=
  match s with
  | EmptyString => [EmptyString]
  | String c s' =>
    if decide (c = sep) then EmptyString :: split sep s'
    else match split sep s' with
         | [] => [String c EmptyString]
         | w :: ws => String c w :: ws
         end
  end.

(** [.sort({ date: -1 })]: descending on the date string, compared
    character by character; records with equal dates keep their order. *)
Fixpoint insert_by_date_desc (d : Attendance.t) (l : list Attendance.t) : list Attendance.t :=
  match l with
  | [] => [d]
  | x :: l' =>
    if String.leb (Attendance.date x) (Attendance.date d) then d :: x :: l'
    else x :: insert_by_date_desc d l'
  end.

Definition sort_by_date_desc (l : list Attendance.t) : list Attendance.t :=
  foldr insert_by_date_desc [] l.

#[global] Instance WriteOp_eq_dec : EqDecision WriteOp.
Proof. solve_decision. Defined.

Section Server.

(** The persistence layer may reject a write (connection loss, a full
    disk, ...).  [rejects w] tells whether writing [w] fails. *)
Variable rejects : WriteOp → bool.

(** *** Model operations *)

Definition Attendance_findOne (regNumber subject date : string)
  : M (option (nat * Attendance.t)) :=
  gets (λ st, Attendance.findOne regNumber subject date (Attendances st)).

(** [new Attendance(d).save()] and [Attendance.create(d)]: validate, then
    insert. *)
Definition Attendance_create (d : Attendance.t) : M unit :=
  if negb (Attendance.valid d) then throw ValidationError
  else if rejects (WAttendance d) then throw StoreError
  else modify (set_Attendances (λ coll, coll ++ [d])).

(** [record.save()] for a document read at position [i]. *)
Definition Attendance_save (i : nat) (d : Attendance.t) : M unit :=
  if negb (Attendance.valid d) then throw ValidationError
  else if rejects (WAttendance d) then throw StoreError
  else modify (set_Attendances (λ coll, <[i := d]> coll)).

Definition QrSession_findOne (qrId : string) : M (option (nat * QrSession.t)) :=
  gets (λ st, QrSession.findOne qrId (QrSessions st)).

(** *** POST /attendance/mark

    [now] is the value of [new Date()] in the expiry test and [today] the
    value of [new Date().toISOString().split('T')[0]]. *)
Definition attendance_mark (now : Z) (today : string) (req : MarkBody) : M Response :=
  try_catch
    (let regNumber := mark_regNumber req in
     let subject := mark_subject req in
     let qrId := mark_qrId req in
     if falsy regNumber || falsy subject || falsy qrId then mret MissingData
     else
       session ← QrSession_findOne qrId;
       match session with
       | None => mret InvalidQr
       | Some (_, session) =>
         if QrSession.expiresAt session <? now then mret ExpiredQr
         else
           let date := today in
           record ← Attendance_findOne regNumber subject date;
           match record with
           | Some (i, record) =>
             match Attendance.status record with
             | present => mret AlreadyMarked
             | absent =>
               let record :=
                 Attendance.mk (Attendance.regNumber record) (Attendance.subject record)
                   (Attendance.date record) present 1 in
               _ ← Attendance_save i record;
               mret (Marked record)
             end
           | None =>
             let record := Attendance.mk regNumber subject date present 1 in
             _ ← Attendance_create record;
             mret (Marked record)
           end
       end)
    (λ err, mret ServerError).

(** *** GET /attendance/:regNumber *)
Definition attendance_history (regNumber : string) : M Response :=
  records ← gets (λ st, sort_by_date_desc (Attendance.find regNumber (Attendances st)));
  mret (History records).

(** *** POST /attendance/decrement

    [today] is the value of [new Date().toISOString().split('T')[0]]. *)
Definition attendance_decrement (today : string) (req : DecrementBody) : M Response :=
  let regNumber := dec_regNumber req in
  let subject := dec_subject req in
  let date := today in
  record ← Attendance_findOne regNumber subject date;
  match record with
  | None =>
    _ ← Attendance_create (Attendance.mk regNumber subject date absent (-3));
    mret AbsentRecorded
  | Some (_, record) =>
    match Attendance.status record with
    | absent => mret AlreadyAbsent
    | present => mret NoPenalty
    end
  end.

(** *** Daily cron ('59 23 * * *')

    The callback has no [try]: a rejected write leaves the callback at that
    point. *)
Definition daily_decrement (today : string) : M unit :=
  students ← gets Students;
  subjects ← gets Subjects;
  for_of students (λ student,
    for_of subjects (λ subj,
      record ← Attendance_findOne (Student.regNumber student) (Subject.name subj) today;
      match record with
      | None =>
        Attendance_create
          (Attendance.mk (Student.regNumber student) (Subject.name subj) today absent (-3))
      | Some _ => mret tt
      end)).

(** *** Teacher authentication middleware

    [jwt_verify now token] is [jwt.verify(token, secret)] evaluated at time
    [now]: the [id] of the payload, or [None] when it throws (bad signature,
    malformed or expired token).  Teacher ids are positions in [Teachers]. *)
Variable jwt_verify : Z → string → option nat.

Definition Teacher_save (id : nat) (x : Teacher.t) : M unit :=
  if negb (Teacher.valid x) then throw ValidationError
  else if rejects (WTeacher x) then throw StoreError
  else modify (set_Teachers (λ coll, <[id := x]> coll)).

(** [next] receives [req.teacher] (with its id) and [req.token]. *)
Definition authenticate (now : Z) (authorization : option string)
    (next : nat → Teacher.t → string → M Response) : M Response :=
  match authorization with
  | None => mret NoTokenProvided
  | Some authHeader =>
    if falsy authHeader || negb (String.prefix "Bearer " authHeader) then mret NoTokenProvided
    else
      match split " "%char authHeader !! 1%nat with
      | None => mret InvalidOrExpiredToken
      | Some token =>
        match jwt_verify now token with
        | None => mret InvalidOrExpiredToken
        | Some id =>
          teacher ← gets (λ st, Teacher.findById id (Teachers st));
          match teacher with
          | None => mret InvalidToken
          | Some teacher =>
            if bool_decide (token ∈ Teacher.tokens teacher) then next id teacher token
            else mret InvalidToken
          end
        end
      end
  end.

(** *** POST /logout *)
Definition logout (now : Z) (authorization : option string) : M Response :=
  authenticate now authorization (λ id teacher token,
    let teacher :=
      Teacher.mk (Teacher.email teacher) (Teacher.password teacher)
        (filter (λ t, t ≠ token) (Teacher.tokens teacher)) in
    _ ← Teacher_save id teacher;
    mret LogoutSuccessful).

(** *** POST /attendance/session

    [qrId] is unique-indexed: creating a session whose [qrId] is taken
    rejects.  [t_id], [t_exp] and [t_created] are the three readings of
    [Date.now()] (in the id, in [expiresAt] and as the [createdAt]
    default); [rand] is [Math.random().toString(36).substring(2, 8)]. *)
Definition QrSession_create (q : QrSession.t) : M unit :=
  if negb (QrSession.valid q) then throw ValidationError
  else
    existing ← QrSession_findOne (QrSession.qrId q);
    match existing with
    | Some _ => throw DuplicateKeyError
    | None =>
      if rejects (WQrSession q) then throw StoreError
      else modify (set_QrSessions (λ coll, coll ++ [q]))
    end.

Definition attendance_session (now : Z) (authorization : option string)
    (t_id t_exp t_created : Z) (rand : string) (subject : string) : M Response :=
  authenticate now authorization (λ _ _ _,
    if falsy subject then mret SubjectRequired
    else
      let qrId := subject +:+ "-" +:+ pretty t_id +:+ "-" +:+ rand in
      let expiresAt := t_exp + 5 * 60 * 1000 in
      _ ← QrSession_create (QrSession.mk subject qrId t_created expiresAt);
      mret (SessionCreated qrId expiresAt)).

End Server.

(** ** The ledger invariant of the specification *)

(** All records stored under a key. *)
Definition records_for (k : string * string * string) (coll : list Attendance.t)
  : list Attendance.t :=
  filter (λ d, Attendance.key d = k) coll.

(** At most one record per (regNumber, subject, date). *)
Definition ledger_ok (coll : list Attendance.t) : Prop :=
  ∀ k, (length (records_for k coll) ≤ 1)%nat.

(** The record a successful mark leaves under the key. *)
Definition marked_record (regNumber subject today : string) : Attendance.t :=
  Attendance.mk regNumber subject today present 1.

(** The record the absence paths create under a key. *)
Definition absent_record (regNumber subject today : string) : Attendance.t :=
  Attendance.mk regNumber subject today absent (-3).

(** What one turn of the cron's inner loop does to the attendance
    collection when its write is accepted, and the whole loop nest as a
    left fold of it over the pairs in iteration order. *)
Definition sweep_step (today : string) (coll : list Attendance.t)
    (p : Student.t * Subject.t) : list Attendance.t :=
  match Attendance.findOne (Student.regNumber p.1) (Subject.name p.2) today coll with
  | None => coll ++ [absent_record (Student.regNumber p.1) (Subject.name p.2) today]
  | Some _ => coll
  end.

Definition sweep_pairs (st : Store) : list (Student.t * Subject.t) :=
  student ← Students st; subj ← Subjects st; [(student, subj)].

(** [a] is dated no earlier than [b]: the order of a descending sort. *)
Definition date_ge (a b : Attendance.t) : Prop :=
  String.leb (Attendance.date b) (Attendance.date a) = true.

(** The request carries [token] as its bearer credential: the header
    passes the middleware's two tests and [token] is what it extracts. *)
Definition presents (authorization : option string) (token : string) : Prop :=
  ∃ authHeader,
    authorization = Some authHeader ∧ falsy authHeader = false ∧
    String.prefix "Bearer " authHeader = true ∧
    split " "%char authHeader !! 1%nat = Some token.

(** The same request sent [n] times in a row, with the responses in order. *)
Fixpoint repeat_request (n : nat) (h : M Response) : M (list Response) :=
  match n with
  | O => mret []
  | S n' => r ← h; rs ← repeat_request n' h; mret (r :: rs)
  end.

(** The QR step of a mark request let the request through to the ledger:
    the response is one of those sent after the expiry test. *)
Definition qr_accepted (res : Result Response) : Prop :=
  res = Ok AlreadyMarked ∨ (∃ record, res = Ok (Marked record)) ∨ res = Ok ServerError.

(** A persistence layer that accepts every write. *)
Definition no_faults : WriteOp → bool := λ _, false.

(** ** The account, subject and student routes *)

(** The libraries these routes call and the persistence layer's answers to
    their writes:
    - [rejects_write], [rejects_student], [rejects_subject]: whether the
      write of that document fails;
    - [jwt_verify now token]: [jwt.verify(token, secret)] at time [now],
      the [id] of the payload or [None] when it throws;
    - [jwt_sign now id]: [jwt.sign({ id }, secret, { expiresIn })] at time
      [now];
    - [bcrypt_hash salt password]: [bcrypt.hash(password, 10)] when the
      library draws [salt];
    - [bcrypt_compare password hash]: [bcrypt.compare(password, hash)];
    - [toLowerCase]: [String.prototype.toLowerCase], the setter that
      [lowercase: true] puts on [email], run on stored values and on query
      values alike. *)
Record Services := mkServices {
  rejects_write : WriteOp → bool;
  rejects_student : Student.t → bool;
  rejects_subject : Subject.t → bool;
  jwt_verify : Z → string → option nat;
  jwt_sign : Z → nat → string;
  bcrypt_hash : string → string → string;
  bcrypt_compare : string → string → bool;
  toLowerCase : string → string
}.

(** Bodies of these routes carry their fields as JSON strings. *)
Record CredentialsBody := mkCredentialsBody {
  cred_email : string;
  cred_password : string
}.

Record StudentBody := mkStudentBody {
  stu_regNumber : string;
  stu_password : string
}.

(** What these routes send: a message-only response, or one of the
    payloads [{ message, token, teacher: { email } }],
    [{ message, student: { regNumber } }], [{ subjects }] and
    [{ message, subject }]. *)
Inductive Reply :=
| Plain (response : Response)
| TeacherReply (statusCode : Z) (message token email : string)
| StudentReply (message regNumber : string)
| SubjectsReply (subjects : list Subject.t)
| SubjectReply (message : string) (subject : Subject.t).

Definition ProvideEmailAndPassword : Reply :=
  Plain (json 400 (JMessage "Please provide email and password.")).
Definition EmailInUse : Reply := Plain (json 400 (JMessage "Email already in use.")).
Definition TeacherRegistered (token email : string) : Reply :=
  TeacherReply 201 "Teacher registered" token email.
Definition InvalidEmailOrPassword : Reply :=
  Plain (json 401 (JMessage "Invalid email or password")).
Definition LoginSuccessful (token email : string) : Reply :=
  TeacherReply 200 "Login successful" token email.
Definition SubjectNameRequired : Reply := Plain (json 400 (JMessage "Subject name required")).
Definition SubjectAdded (subject : Subject.t) : Reply := SubjectReply "Subject added" subject.
Definition MissingRegNumberOrPassword : Reply :=
  Plain (json 400 (JMessage "Missing registration number or password")).
Definition StudentExists : Reply := Plain (json 400 (JMessage "Student already exists")).
Definition StudentRegistered : Reply :=
  Plain (json 200 (JMessage "Student registered successfully")).
Definition InvalidRegNumber : Reply :=
  Plain (json 400 (JMessage "Invalid registration number")).
Definition IncorrectPassword : Reply := Plain (json 400 (JMessage "Incorrect password")).
Definition StudentLoggedIn (regNumber : string) : Reply :=
  StudentReply "Login successful" regNumber.

Definition set_Students (f : list Student.t → list Student.t) (st : Store) : Store :=
  mkStore (Teachers st) (f (Students st)) (Subjects st) (Attendances st) (QrSessions st).

Definition set_Subjects (f : list Subject.t → list Subject.t) (st : Store) : Store :=
  mkStore (Teachers st) (Students st) (f (Subjects st)) (Attendances st) (QrSessions st).

(** *** Model operations *)

Definition Student_valid (s : Student.t) : bool :=
  required (Student.regNumber s) && required (Student.password s).

Definition Subject_valid (s : Subject.t) : bool :=
  required (Subject.name s) && required (Subject.teacherEmail s).

(** [Teacher.findOne({ email })] *)
Definition Teacher_findOne (sv : Services) (email : string) : M (option (nat * Teacher.t)) :=
  gets (λ st, list_find (λ x, Teacher.email x = toLowerCase sv email) (Teachers st)).

(** [teacher.save()] for a document made by [new Teacher(...)]: validate,
    then insert; [email] is unique-indexed. *)
Definition Teacher_create (sv : Services) (x : Teacher.t) : M unit :=
  if negb (Teacher.valid x) then throw ValidationError
  else
    existing ← gets (λ st, list_find (λ y, Teacher.email y = Teacher.email x) (Teachers st));
    match existing with
    | Some _ => throw DuplicateKeyError
    | None =>
      if rejects_write sv (WTeacher x) then throw StoreError
      else modify (set_Teachers (λ coll, coll ++ [x]))
    end.

(** [Student.findOne({ regNumber })] *)
Definition Student_findOne (regNumber : string) : M (option (nat * Student.t)) :=
  gets (λ st, list_find (λ s, Student.regNumber s = regNumber) (Students st)).

(** [Student.create(s)]; [regNumber] is unique-indexed. *)
Definition Student_create (sv : Services) (s : Student.t) : M unit :=
  if negb (Student_valid s) then throw ValidationError
  else
    existing ← Student_findOne (Student.regNumber s);
    match existing with
    | Some _ => throw DuplicateKeyError
    | None =>
      if rejects_student sv s then throw StoreError
      else modify (set_Students (λ coll, coll ++ [s]))
    end.

(** [Subject.find({ teacherEmail })] *)
Definition Subject_find (teacherEmail : string) : M (list Subject.t) :=
  gets (λ st, filter (λ s, Subject.teacherEmail s = teacherEmail) (Subjects st)).

(** [Subject.create(s)] *)
Definition Subject_create (sv : Services) (s : Subject.t) : M unit :=
  if negb (Subject_valid s) then throw ValidationError
  else if rejects_subject sv s then throw StoreError
  else modify (set_Subjects (λ coll, coll ++ [s])).

(** *** generateToken *)
Definition generateToken (sv : Services) (now : Z) (teacherId : nat) : string :=
  jwt_sign sv now teacherId.

(** *** POST /register

    The id of [new Teacher(...)] is the position the document takes when
    it is saved. *)
Definition register (sv : Services) (now : Z) (salt : string) (req : CredentialsBody)
  : M Reply :=
  try_catch
    (let email := cred_email req in
     let password := cred_password req in
     if falsy email || falsy password then mret ProvideEmailAndPassword
     else
       existing ← Teacher_findOne sv email;
       match existing with
       | Some _ => mret EmailInUse
       | None =>
         let hashedPassword := bcrypt_hash sv salt password in
         id ← gets (λ st, length (Teachers st));
         let token := generateToken sv now id in
         let teacher := Teacher.mk (toLowerCase sv email) hashedPassword [token] in
         _ ← Teacher_create sv teacher;
         mret (TeacherRegistered token email)
       end)
    (λ _, mret (Plain ServerError)).

(** *** POST /login *)
Definition login (sv : Services) (now : Z) (req : CredentialsBody) : M Reply :=
  try_catch
    (let email := cred_email req in
     let password := cred_password req in
     teacher ← Teacher_findOne sv email;
     match teacher with
     | None => mret InvalidEmailOrPassword
     | Some (id, teacher) =>
       if negb (bcrypt_compare sv password (Teacher.password teacher))
       then mret InvalidEmailOrPassword
       else
         let token := generateToken sv now id in
         let teacher :=
           Teacher.mk (Teacher.email teacher) (Teacher.password teacher)
             (Teacher.tokens teacher ++ [token]) in
         _ ← Teacher_save (rejects_write sv) id teacher;
         mret (LoginSuccessful token email)
     end)
    (λ _, mret (Plain ServerError)).

(** *** The authentication middleware in front of routes that send a
    [Reply]: [authenticate] with the type of the answer left open;
    [reply] wraps the middleware's own 401 responses. *)
Definition authenticate_for {R : Type} (reply : Response → R) (sv : Services) (now : Z)
    (authorization : option string) (next : nat → Teacher.t → string → M R) : M R :=
  match authorization with
  | None => mret (reply NoTokenProvided)
  | Some authHeader =>
    if falsy authHeader || negb (String.prefix "Bearer " authHeader)
    then mret (reply NoTokenProvided)
    else
      match split " "%char authHeader !! 1%nat with
      | None => mret (reply InvalidOrExpiredToken)
      | Some token =>
        match jwt_verify sv now token with
        | None => mret (reply InvalidOrExpiredToken)
        | Some id =>
          teacher ← gets (λ st, Teacher.findById id (Teachers st));
          match teacher with
          | None => mret (reply InvalidToken)
          | Some teacher =>
            if bool_decide (token ∈ Teacher.tokens teacher) then next id teacher token
            else mret (reply InvalidToken)
          end
        end
      end
  end.

(** *** GET /subjects *)
Definition get_subjects (sv : Services) (now : Z) (authorization : option string) : M Reply :=
  authenticate_for Plain sv now authorization (λ _ teacher _,
    subjects ← Subject_find (Teacher.email teacher);
    mret (SubjectsReply subjects)).

(** *** POST /subjects *)
Definition post_subjects (sv : Services) (now : Z) (authorization : option string)
    (name : string) : M Reply :=
  authenticate_for Plain sv now authorization (λ _ teacher _,
    if falsy name then mret SubjectNameRequired
    else
      let subject := Subject.mk name (Teacher.email teacher) in
      _ ← Subject_create sv subject;
      mret (SubjectAdded subject)).

(** *** POST /student/register *)
Definition student_register (sv : Services) (salt : string) (req : StudentBody) : M Reply :=
  let regNumber := stu_regNumber req in
  let password := stu_password req in
  if falsy regNumber || falsy password then mret MissingRegNumberOrPassword
  else
    existing ← Student_findOne regNumber;
    match existing with
    | Some _ => mret StudentExists
    | None =>
      let hashed := bcrypt_hash sv salt password in
      _ ← Student_create sv (Student.mk regNumber hashed);
      mret StudentRegistered
    end.

(** *** POST /student/login *)
Definition student_login (sv : Services) (req : StudentBody) : M Reply :=
  let regNumber := stu_regNumber req in
  let password := stu_password req in
  student ← Student_findOne regNumber;
  match student with
  | None => mret InvalidRegNumber
  | Some (_, student) =>
    if negb (bcrypt_compare sv password (Student.password student)) then mret IncorrectPassword
    else mret (StudentLoggedIn regNumber)
  end.

(** ** The server as a whole *)

(** One request (or one firing of the cron) with everything it reads from
    outside: clock readings, the salt and random suffix drawn, the
    Authorization header and the body. *)
Inductive Request :=
| PostRegister (now : Z) (salt : string) (req : CredentialsBody)
| PostLogin (now : Z) (req : CredentialsBody)
| PostLogout (now : Z) (authorization : option string)
| GetSubjects (now : Z) (authorization : option string)
| PostSubjects (now : Z) (authorization : option string) (name : string)
| PostStudentRegister (salt : string) (req : StudentBody)
| PostStudentLogin (req : StudentBody)
| PostAttendanceSession (now : Z) (authorization : option string)
    (t_id t_exp t_created : Z) (rand : string) (subject : string)
| PostAttendanceMark (now : Z) (today : string) (req : MarkBody)
| GetAttendance (regNumber : string)
| PostAttendanceDecrement (today : string) (req : DecrementBody)
| CronDailyDecrement (today : string).

(** The store a request leaves behind, whether it was answered or ended in
    an unhandled rejection. *)
Definition serve (sv : Services) (r : Request) (st : Store) : Store :=
  match r with
  | PostRegister now salt req => (register sv now salt req st).2
  | PostLogin now req => (login sv now req st).2
  | PostLogout now authorization =>
    (logout (rejects_write sv) (jwt_verify sv) now authorization st).2
  | GetSubjects now authorization => (get_subjects sv now authorization st).2
  | PostSubjects now authorization name => (post_subjects sv now authorization name st).2
  | PostStudentRegister salt req => (student_register sv salt req st).2
  | PostStudentLogin req => (student_login sv req st).2
  | PostAttendanceSession now authorization t_id t_exp t_created rand subject =>
    (attendance_session (rejects_write sv) (jwt_verify sv) now authorization
       t_id t_exp t_created rand subject st).2
  | PostAttendanceMark now today req => (attendance_mark (rejects_write sv) now today req st).2
  | GetAttendance regNumber => (attendance_history regNumber st).2
  | PostAttendanceDecrement today req =>
    (attendance_decrement (rejects_write sv) today req st).2
  | CronDailyDecrement today => (daily_decrement (rejects_write sv) today st).2
  end.

(** Requests served one after the other. *)
Definition run (sv : Services) (rs : list Request) (st : Store) : Store :=
  foldl (λ st r, serve sv r st) st rs.

(** The elementary changes of the store. *)
Inductive effect : Store → Store → Prop :=
| effect_teacher_created st x :
    Teacher.valid x = true →
    (∀ y, y ∈ Teachers st → Teacher.email y ≠ Teacher.email x) →
    effect st (set_Teachers (λ coll, coll ++ [x]) st)
| effect_tokens_replaced st id x tokens :
    Teachers st !! id = Some x →
    effect st
      (set_Teachers
         (λ coll, <[id := Teacher.mk (Teacher.email x) (Teacher.password x) tokens]> coll) st)
| effect_student_created st s :
    Student_valid s = true →
    (∀ y, y ∈ Students st → Student.regNumber y ≠ Student.regNumber s) →
    effect st (set_Students (λ coll, coll ++ [s]) st)
| effect_subject_created st s :
    Subject_valid s = true →
    effect st (set_Subjects (λ coll, coll ++ [s]) st)
| effect_session_created st q :
    QrSession.valid q = true →
    (∀ y, y ∈ QrSessions st → QrSession.qrId y ≠ QrSession.qrId q) →
    effect st (set_QrSessions (λ coll, coll ++ [q]) st)
| effect_record_created st d :
    Attendance.valid d = true →
    records_for (Attendance.key d) (Attendances st) = [] →
    (Attendance.status d = present ∧ Attendance.scoreChange d = 1) ∨
    (Attendance.status d = absent ∧ Attendance.scoreChange d = -3) →
    effect st (set_Attendances (λ coll, coll ++ [d]) st)
| effect_record_marked st i d :
    Attendances st !! i = Some d →
    Attendance.status d = absent →
    effect st
      (set_Attendances
         (λ coll,
           <[i := Attendance.mk (Attendance.regNumber d) (Attendance.subject d)
                    (Attendance.date d) present 1]> coll) st).

(** Every stored record scores +1 when present and -3 when absent. *)
Definition scores_match_status (coll : list Attendance.t) : Prop :=
  ∀ d, d ∈ coll →
    (Attendance.status d = present ∧ Attendance.scoreChange d = 1) ∨
    (Attendance.status d = absent ∧ Attendance.scoreChange d = -3).

(** Every stored document passes the validation of its schema. *)
Definition documents_valid (st : Store) : Prop :=
  Forall (λ x, Teacher.valid x = true) (Teachers st) ∧
  Forall (λ s, Student_valid s = true) (Students st) ∧
  Forall (λ s, Subject_valid s = true) (Subjects st) ∧
  Forall (λ d, Attendance.valid d = true) (Attendances st) ∧
  Forall (λ q, QrSession.valid q = true) (QrSessions st).

(** The unique indexes hold: no two teachers share an email, no two
    students a regNumber, no two QR sessions a qrId. *)
Definition unique_indexes (st : Store) : Prop :=
  NoDup (Teacher.email <$> Teachers st) ∧
  NoDup (Student.regNumber <$> Students st) ∧
  NoDup (QrSession.qrId <$> QrSessions st).

(** [st'] still has every attendance record of [st] at its position and
    under its key, and the present ones exactly as they were. *)
Definition records_kept (st st' : Store) : Prop :=
  ∀ i d, Attendances st !! i = Some d →
    ∃ d', Attendances st' !! i = Some d' ∧ Attendance.key d' = Attendance.key d ∧
          (Attendance.status d = present → d' = d).

(** [st'] still has every teacher of [st] at its position, with the same
    email and password. *)
Definition teachers_kept (st st' : Store) : Prop :=
  ∀ id x, Teachers st !! id = Some x →
    ∃ x', Teachers st' !! id = Some x' ∧ Teacher.email x' = Teacher.email x ∧
          Teacher.password x' = Teacher.password x.

(** ** Bodies as the routes receive them

    A route destructures its body and hands the fields on as they are,
    so a field need not be a string.  For the String paths of the models
    a JSON value is one of three things:
    - [JStr s]: the string [s], or a number or boolean, which the path
      casts to its text [s]; a falsy value (absent, null, 0, false) fails
      the tests of the mark route as the empty string does;
    - [JOp selects]: an object of query operators such as
      [{ "$ne": "x" }] (or an array, read as [$in]); in a filter it
      selects the stored strings it matches, as the value of a document
      it cannot be cast;
    - [JUncastable]: any other object: casting the filter throws, and so
      does saving a document that holds it. *)
Inductive JValue :=
| JStr (s : string)
| JOp (selects : string → bool)
| JUncastable.

Definition truthy (v : JValue) : bool :=
  match v with
  | JStr s => negb (falsy s)
  | JOp _ | JUncastable => true
  end.

(** The condition a value puts on a String path of a filter, [None] when
    casting it throws. *)
Definition as_filter (v : JValue) : option (string → bool) :=
  match v with
  | JStr s => Some (λ x, bool_decide (x = s))
  | JOp selects => Some selects
  | JUncastable => None
  end.

(** The string a value becomes on a String path of a document, [None]
    when it cannot be cast. *)
Definition as_string (v : JValue) : option string :=
  match v with
  | JStr s => Some s
  | JOp _ | JUncastable => None
  end.

(** [QrSession.findOne({ qrId })] for any value of [qrId]. *)
Definition select_session (qrId : JValue) (coll : list QrSession.t)
  : option (option (nat * QrSession.t)) :=
  selects ← as_filter qrId;
  Some (list_find (λ q, selects (QrSession.qrId q) = true) coll).

(** [Attendance.findOne({ regNumber, subject, date })] for any values of
    [regNumber] and [subject]. *)
Definition select_record (regNumber subject : JValue) (date : string)
    (coll : list Attendance.t) : option (option (nat * Attendance.t)) :=
  selects_reg ← as_filter regNumber;
  selects_subj ← as_filter subject;
  Some (list_find
          (λ d, selects_reg (Attendance.regNumber d) = true ∧
                selects_subj (Attendance.subject d) = true ∧
                Attendance.date d = date) coll).

(** An awaited query: the selection, or the rejection of a filter that
    cannot be cast. *)
Definition query {A} (select : Store → option A) : M A := λ st,
  match select st with
  | Some a => (Ok a, st)
  | None => (Throw CastError, st)
  end.

Record MarkRequest := mkMarkRequest {
  req_regNumber : JValue;
  req_subject : JValue;
  req_qrId : JValue
}.

(** *** POST /attendance/mark, for any body

    [attendance_mark] is this route on bodies whose three fields are
    strings ([mark_request_strings] below). *)
Definition mark_request (rejects : WriteOp → bool) (now : Z) (today : string)
    (req : MarkRequest) : M Response :=
  try_catch
    (let regNumber := req_regNumber req in
     let subject := req_subject req in
     let qrId := req_qrId req in
     if negb (truthy regNumber) || negb (truthy subject) || negb (truthy qrId)
     then mret MissingData
     else
       session ← query (λ st, select_session qrId (QrSessions st));
       match session with
       | None => mret InvalidQr
       | Some (_, session) =>
         if QrSession.expiresAt session <? now then mret ExpiredQr
         else
           let date := today in
           record ← query (λ st, select_record regNumber subject date (Attendances st));
           match record with
           | Some (i, record) =>
             match Attendance.status record with
             | present => mret AlreadyMarked
             | absent =>
               let record :=
                 Attendance.mk (Attendance.regNumber record) (Attendance.subject record)
                   (Attendance.date record) present 1 in
               _ ← Attendance_save rejects i record;
               mret (Marked record)
             end
           | None =>
             match as_string regNumber, as_string subject with
             | Some regNumber, Some subject =>
               let record := Attendance.mk regNumber subject date present 1 in
               _ ← Attendance_create rejects record;
               mret (Marked record)
             | _, _ => throw ValidationError
             end
           end
       end)
    (λ err, mret ServerError).

(** What [mark_request] does once the QR step has let the request through,
    with the store threaded by hand. *)
Definition after_qr_step (rejects : WriteOp → bool) (today : string) (req : MarkRequest)
    (st : Store) : Result Response * Store :=
  match select_record (req_regNumber req) (req_subject req) today (Attendances st) with
  | None => (Ok ServerError, st)
  | Some (Some (i, record)) =>
    match Attendance.status record with
    | present => (Ok AlreadyMarked, st)
    | absent =>
      let record' :=
        Attendance.mk (Attendance.regNumber record) (Attendance.subject record)
          (Attendance.date record) present 1 in
      if negb (Attendance.valid record') then (Ok ServerError, st)
      else if rejects (WAttendance record') then (Ok ServerError, st)
      else (Ok (Marked record'), set_Attendances (λ coll, <[i := record']> coll) st)
    end
  | Some None =>
    match as_string (req_regNumber req), as_string (req_subject req) with
    | Some regNumber, Some subject =>
      let record' := Attendance.mk regNumber subject today present 1 in
      if negb (Attendance.valid record') then (Ok ServerError, st)
      else if rejects (WAttendance record') then (Ok ServerError, st)
      else (Ok (Marked record'), set_Attendances (λ coll, coll ++ [record']) st)
    | _, _ => (Ok ServerError, st)
    end
  end.

(** *** POST /login, for any email and with or without a password

    [login_password] is [Some] for a string and [None] for anything else
    (an absent password included): [bcrypt.compare] throws on what is not
    a string.  A body without [email] is not covered; what its filter
    selects is the driver's matter.  [login] is this route on bodies whose
    two fields are strings ([login_request_strings] below). *)
Record LoginRequest := mkLoginRequest {
  login_email : JValue;
  login_password : option string
}.

Inductive LoginReply :=
| LoginIssued (token : string) (email : JValue)
| LoginAnswered (response : Response).

Definition InvalidEmailOrPassword401 : Response :=
  json 401 (JMessage "Invalid email or password").

(** [Teacher.findOne({ email })] for any value of [email]; the lowercase
    setter applies to a string. *)
Definition select_teacher (sv : Services) (email : JValue) (coll : list Teacher.t)
  : option (option (nat * Teacher.t)) :=
  match email with
  | JStr s => Some (list_find (λ x, Teacher.email x = toLowerCase sv s) coll)
  | JOp selects => Some (list_find (λ x, selects (Teacher.email x) = true) coll)
  | JUncastable => None
  end.

(** [bcrypt.compare(password, hash)] *)
Definition compare_password (sv : Services) (password : option string) (hash : string)
  : M bool :=
  match password with
  | Some s => mret (bcrypt_compare sv s hash)
  | None => throw IllegalArguments
  end.

Definition login_request (sv : Services) (now : Z) (req : LoginRequest) : M LoginReply :=
  try_catch
    (let email := login_email req in
     let password := login_password req in
     teacher ← query (λ st, select_teacher sv email (Teachers st));
     match teacher with
     | None => mret (LoginAnswered InvalidEmailOrPassword401)
     | Some (id, teacher) =>
       match_ ← compare_password sv password (Teacher.password teacher);
       if negb match_ then mret (LoginAnswered InvalidEmailOrPassword401)
       else
         let token := generateToken sv now id in
         let teacher :=
           Teacher.mk (Teacher.email teacher) (Teacher.password teacher)
             (Teacher.tokens teacher ++ [token]) in
         _ ← Teacher_save (rejects_write sv) id teacher;
         mret (LoginIssued token email)
     end)
    (λ _, mret (LoginAnswered ServerError)).

(** The operator object [{ "$ne": "x" }]. *)
Definition ne_x : JValue := JOp (λ s, negb (bool_decide (s = "x"))).

(** ** Examples *)

Definition demo : Store :=
  mkStore [Teacher.mk "t@x" "h" ["tok1"; "tok2"]]
    [Student.mk "21CS01" "h1"; Student.mk "21CS02" "h2"] [Subject.mk "Math" "t@x"] []
    [QrSession.mk "Math" "Math-1-abc" 1000 301000].

(** A persistence layer that rejects one write: the absence record of
    student 21CS01 in Math on 2024-01-01. *)
Definition rejects_first : WriteOp → bool :=
  λ w, bool_decide (w = WAttendance (absent_record "21CS01" "Math" "2024-01-01")).

(** [demo] after the sweep of 2024-01-01. *)
Definition demo_swept : Store :=
  set_Attendances
    (λ _, [absent_record "21CS01" "Math" "2024-01-01";
           absent_record "21CS02" "Math" "2024-01-01"]) demo.

(** [demo] after student 21CS01 scanned the Math code on 2024-01-01. *)
Definition demo_marked : Store :=
  set_Attendances (λ _, [marked_record "21CS01" "Math" "2024-01-01"]) demo.

Definition demo_teacher : Teacher.t := Teacher.mk "t@x" "h" ["tok1"; "tok2"].

Definition demo_session : QrSession.t := QrSession.mk "Math" "Math-1-abc" 1000 301000.

Definition demo_mark : MarkBody := mkMarkBody "21CS01" "Math" "Math-1-abc".

Definition demo_jwt : Z → string → option nat :=
  λ _ tok, if bool_decide (tok ∈ ["tok1"; "tok2"]) then Some 0%nat else None.

(** Toy libraries for the examples: a token is [tok] followed by the time
    of signing and always names teacher 0; a hash is the salt, [$] and
    the password; lowercasing maps A-Z to a-z. *)
Definition demo_sign : Z → nat → string := λ now _, "tok" +:+ pretty now.

Definition demo_verify : Z → string → option nat :=
  λ _ token, if String.prefix "tok" token then Some 0%nat else None.

Definition demo_hash : string → string → string := λ salt password, salt +:+ "$" +:+ password.

Definition demo_compare : string → string → bool :=
  λ password hash, bool_decide (split "$"%char hash !! 1%nat = Some password).

Definition lower_ascii (c : ascii) : ascii :=
  let n := N_of_ascii c in
  if ((65 <=? n) && (n <=? 90))%N then ascii_of_N (n + 32) else c.

Fixpoint demo_lower (s : string) : string :=
  match s with
  | EmptyString => EmptyString
  | String c s' => String (lower_ascii c) (demo_lower s')
  end.

Definition demo_services : Services :=
  mkServices no_faults (λ _, false) (λ _, false) demo_verify demo_sign
    demo_hash demo_compare demo_lower.

(** A school with one teacher (password [secret], one session open), one
    student and one subject. *)
Definition demo_school : Store :=
  mkStore [Teacher.mk "t@x" "s$secret" ["tok1"]] [Student.mk "21CS01" "s$pw1"]
    [Subject.mk "Math" "t@x"] [] [].

Definition demo_day : list Request :=
  [PostRegister 10 "s" (mkCredentialsBody "New@X" "pw");
   PostLogin 20 (mkCredentialsBody "T@x" "secret");
   PostStudentRegister "s" (mkStudentBody "21CS02" "pw2");
   PostSubjects 25 (Some "Bearer tok20") "Physics";
   PostAttendanceSession 30 (Some "Bearer tok1") 31 32 33 "k3j9x0" "Math";
   PostAttendanceMark 40 "2024-01-01" (mkMarkBody "21CS01" "Math" "Math-31-k3j9x0");
   CronDailyDecrement "2024-01-01";
   PostAttendanceMark 50 "2024-01-01" (mkMarkBody "21CS02" "Physics" "Math-31-k3j9x0");
   PostLogout 60 (Some "Bearer tok1")].

Example demo_day_store :
  run demo_services demo_day demo_school
  = mkStore
      [Teacher.mk "t@x" "s$secret" ["tok20"]; Teacher.mk "new@x" "s$pw" ["tok10"]]
      [Student.mk "21CS01" "s$pw1"; Student.mk "21CS02" "s$pw2"]
      [Subject.mk "Math" "t@x"; Subject.mk "Physics" "t@x"]
      [marked_record "21CS01" "Math" "2024-01-01";
       absent_record "21CS01" "Physics" "2024-01-01";
       absent_record "21CS02" "Math" "2024-01-01";
       marked_record "21CS02" "Physics" "2024-01-01"]
      [QrSession.mk "Math" "Math-31-k3j9x0" 33 300032].
Proof. vm_compute. reflexivity. Qed.

Example register_same_email_other_case :
  (register demo_services 10 "s" (mkCredentialsBody "T@X" "pw") demo_school).1
  = Ok EmailInUse.
Proof. vm_compute. reflexivity. Qed.

Example mark_operator_qrId_demo :
  attendance_mark no_faults 2000 "2024-01-01" (mkMarkBody "21CS01" "Math" "nosuchid") demo
    = (Ok InvalidQr, demo) ∧
  (mark_request no_faults 2000 "2024-01-01"
     (mkMarkRequest (JStr "21CS01") (JStr "Math") ne_x) demo).1
    = Ok (Marked (marked_record "21CS01" "Math" "2024-01-01")).
Proof. vm_compute. done. Qed.

Example mark_operator_regNumber_demo :
  Attendances
    (mark_request no_faults 2000 "2024-01-01"
       (mkMarkRequest ne_x (JStr "Math") (JStr "Math-1-abc")) demo_swept).2
  = [marked_record "21CS01" "Math" "2024-01-01"; absent_record "21CS02" "Math" "2024-01-01"].
Proof. vm_compute. reflexivity. Qed.

Example login_without_password_demo :
  (login_request demo_services 20 (mkLoginRequest (JStr "t@x") None) demo_school).1
    = Ok (LoginAnswered ServerError) ∧
  (login_request demo_services 20 (mkLoginRequest (JStr "nobody@x") None) demo_school).1
    = Ok (LoginAnswered InvalidEmailOrPassword401).
Proof. vm_compute. done. Qed.

Example mark_demo :
  (attendance_mark no_faults 2000 "2024-01-01" (mkMarkBody "21CS01" "Math" "Math-1-abc") demo).1
  = Ok (Marked (Attendance.mk "21CS01" "Math" "2024-01-01" present 1)).
Proof. vm_compute. reflexivity. Qed.

Example split_demo : split " "%char "Bearer abc def" = ["Bearer"; "abc"; "def"].
Proof. reflexivity. Qed.

Example session_demo :
  (attendance_session no_faults demo_jwt 5 (Some "Bearer tok1") 1700 1701 1702 "k3j9x0" "Math" demo).1
  = Ok (SessionCreated "Math-1700-k3j9x0" 301701).
Proof. vm_compute. reflexivity. Qed.

Example logout_demo :
  Teachers (logout no_faults demo_jwt 5 (Some "Bearer tok1") demo).2
  = [Teacher.mk "t@x" "h" ["tok2"]].
Proof. vm_compute. reflexivity. Qed.

Example split_bearer_only : split " "%char "Bearer " = ["Bearer"; ""].
Proof. reflexivity. Qed.

Example mark_expired_demo :
  attendance_mark no_faults 301001 "2024-01-01" demo_mark demo = (Ok ExpiredQr, demo).
Proof. vm_compute. reflexivity. Qed.

Example mark_at_expiry_demo :
  (attendance_mark no_faults 301000 "2024-01-01" demo_mark demo).1
  = Ok (Marked (marked_record "21CS01" "Math" "2024-01-01")).
Proof. vm_compute. reflexivity. Qed.

Example mark_after_sweep_demo :
  Attendances (attendance_mark no_faults 2000 "2024-01-01" demo_mark demo_swept).2
  = [marked_record "21CS01" "Math" "2024-01-01"; absent_record "21CS02" "Math" "2024-01-01"].
Proof. vm_compute. reflexivity. Qed.

Example decrement_after_mark_demo :
  attendance_decrement no_faults "2024-01-01" (mkDecrementBody "21CS01" "Math") demo_marked
  = (Ok NoPenalty, demo_marked).
Proof. vm_compute. reflexivity. Qed.

Example history_demo :
  (attendance_history "21CS01"
     (set_Attendances
        (λ _, [absent_record "21CS01" "Math" "2024-01-01";
               marked_record "21CS02" "Math" "2024-01-02";
               marked_record "21CS01" "Math" "2024-01-03";
               marked_record "21CS01" "Physics" "2024-01-02"]) demo)).1
  = Ok (History [marked_record "21CS01" "Math" "2024-01-03";
                 marked_record "21CS01" "Physics" "2024-01-02";
                 absent_record "21CS01" "Math" "2024-01-01"]).
Proof. vm_compute. reflexivity. Qed.

Example sweep_demo :
  Attendances (daily_decrement no_faults "2024-01-01" demo).2
  = [Attendance.mk "21CS01" "Math" "2024-01-01" absent (-3);
     Attendance.mk "21CS02" "Math" "2024-01-01" absent (-3)].
Proof. vm_compute. reflexivity. Qed.



(** ** Basic facts about the helpers *)

Lemma falsy_false (s : string) : s ≠ "" → falsy s = false.
Proof. intros H. unfold falsy. by apply bool_decide_eq_false. Qed.

Lemma required_true (s : string) : s ≠ "" → required s = true.
Proof. intros H. unfold required. by rewrite bool_decide_eq_false_2. Qed.

Lemma valid_key (d : Attendance.t) r s t :
  Attendance.key d = (r, s, t) → r ≠ "" → s ≠ "" → t ≠ "" → Attendance.valid d = true.
Proof.
  unfold Attendance.key, Attendance.valid. intros [= -> -> ->] ? ? ?.
  by rewrite !required_true.
Qed.

Lemma findOne_Some_inv r s t coll i d :
  Attendance.findOne r s t coll = Some (i, d) →
  coll !! i = Some d ∧ Attendance.key d = (r, s, t).
Proof.
  unfold Attendance.findOne. intros (? & ? & _)%list_find_Some. done.
Qed.

Lemma findOne_None_records r s t coll :
  Attendance.findOne r s t coll = None ↔ records_for (r, s, t) coll = [].
Proof.
  unfold Attendance.findOne, records_for. rewrite list_find_None.
  split.
  - intros H. induction H as [|x l Hx _ IH]; [done|].
    rewrite filter_cons_False; done.
  - intros H. apply Forall_forall. intros x Hx Hk.
    assert (x ∈ filter (λ d, Attendance.key d = (r, s, t)) coll) as Hin
      by (apply list_elem_of_filter; done).
    rewrite H in Hin. by apply not_elem_of_nil in Hin.
Qed.

(** The handler of POST /attendance/mark, with the store threaded by hand. *)
Lemma mark_unfold rejects now today req st :
  mark_regNumber req ≠ "" → mark_subject req ≠ "" → mark_qrId req ≠ "" →
  attendance_mark rejects now today req st =
  match QrSession.findOne (mark_qrId req) (QrSessions st) with
  | None => (Ok InvalidQr, st)
  | Some (_, session) =>
    if QrSession.expiresAt session <? now then (Ok ExpiredQr, st)
    else
      match Attendance.findOne (mark_regNumber req) (mark_subject req) today (Attendances st) with
      | Some (i, record) =>
        match Attendance.status record with
        | present => (Ok AlreadyMarked, st)
        | absent =>
          let record' :=
            Attendance.mk (Attendance.regNumber record) (Attendance.subject record)
              (Attendance.date record) present 1 in
          if negb (Attendance.valid record') then (Ok ServerError, st)
          else if rejects (WAttendance record') then (Ok ServerError, st)
          else (Ok (Marked record'), set_Attendances (λ coll, <[i := record']> coll) st)
        end
      | None =>
        let record' :=
          Attendance.mk (mark_regNumber req) (mark_subject req) today present 1 in
        if negb (Attendance.valid record') then (Ok ServerError, st)
        else if rejects (WAttendance record') then (Ok ServerError, st)
        else (Ok (Marked record'), set_Attendances (λ coll, coll ++ [record']) st)
      end
  end.
Proof.
  intros H1 H2 H3.
  unfold attendance_mark, try_catch. rewrite !falsy_false by done. simpl.
  unfold mbind, M_bind, QrSession_findOne, Attendance_findOne, gets. simpl.
  destruct (QrSession.findOne _ _) as [[j session]|]; [|done].
  destruct (_ <? now); [done|]. simpl.
  destruct (Attendance.findOne _ _ _ _) as [[i record]|].
  - destruct (Attendance.status record); [done|].
    unfold Attendance_save. cbv zeta.
    destruct (negb _); [done|]. destruct (rejects _); done.
  - unfold Attendance_create. cbv zeta.
    destruct (negb _); [done|]. destruct (rejects _); done.
Qed.


Lemma qr_accepted_after_expiry_test rejects now today req st i session :
  mark_regNumber req ≠ "" → mark_subject req ≠ "" → mark_qrId req ≠ "" →
  QrSession.findOne (mark_qrId req) (QrSessions st) = Some (i, session) →
  now ≤ QrSession.expiresAt session →
  qr_accepted (attendance_mark rejects now today req st).1.
Proof.
  intros H1 H2 H3 Hs Hle. rewrite mark_unfold, Hs by done.
  destruct (Z.ltb_spec (QrSession.expiresAt session) now) as [|_]; [lia|].
  unfold qr_accepted.
  destruct (Attendance.findOne _ _ _ _) as [[j r]|]; cbv zeta.
  - destruct (Attendance.status r); [by left|].
    destruct (negb _); [by right; right|].
    destruct (rejects _); [by right; right|]. right; left. by eexists.
  - destruct (negb _); [by right; right|].
    destruct (rejects _); [by right; right|]. right; left. by eexists.
Qed.

(** ** Records stored under a key *)

Section filter_facts.
Context {A : Type} (P : A → Prop) `{!∀ x, Decision (P x)}.

Lemma filter_Forall_not (l : list A) : Forall (λ x, ¬ P x) l → filter P l = [].
Proof.
  induction 1 as [|x l Hx _ IH]; [done|]. by rewrite filter_cons_False.
Qed.

Lemma filter_at (l : list A) i x :
  l !! i = Some x →
  filter P l = filter P (take i l) ++ filter P [x] ++ filter P (drop (S i) l).
Proof.
  intros Hi. rewrite <- (take_drop_middle l i x Hi) at 1.
  rewrite filter_app. f_equal.
  change (x :: drop (S i) l) with ([x] ++ drop (S i) l). by rewrite filter_app.
Qed.

Lemma filter_insert_at (l : list A) i x y :
  l !! i = Some x →
  filter P (<[i := y]> l) = filter P (take i l) ++ filter P [y] ++ filter P (drop (S i) l).
Proof.
  intros Hi. rewrite insert_take_drop by (by eapply lookup_lt_Some).
  rewrite filter_app. f_equal.
  change (y :: drop (S i) l) with ([y] ++ drop (S i) l). by rewrite filter_app.
Qed.

Lemma filter_before_find (l : list A) i x :
  list_find P l = Some (i, x) → filter P (take i l) = [].
Proof.
  intros (_ & _ & Hleast)%list_find_Some. apply filter_Forall_not, Forall_lookup.
  intros j y [Hj Hlt]%lookup_take_Some. by eapply Hleast.
Qed.

Lemma list_find_insert_same (l : list A) i x y :
  list_find P l = Some (i, x) → P y → list_find P (<[i := y]> l) = Some (i, y).
Proof.
  intros (Hi & _ & Hleast)%list_find_Some Hy. apply list_find_Some. split_and!.
  - apply list_lookup_insert_eq. by eapply lookup_lt_Some.
  - done.
  - intros j z Hj Hlt. rewrite list_lookup_insert_ne in Hj by lia. by eapply Hleast.
Qed.

Lemma list_find_snoc (l : list A) y :
  list_find P l = None → P y → list_find P (l ++ [y]) = Some (length l, y).
Proof.
  intros Hnone Hy. apply list_find_Some. split_and!.
  - by rewrite lookup_app_r, Nat.sub_diag.
  - done.
  - intros j z Hj Hlt. rewrite lookup_app_l in Hj by done.
    apply list_find_None in Hnone. eapply Forall_lookup_1 in Hnone; eauto.
Qed.

End filter_facts.

Lemma records_for_sole r s t coll i d :
  Attendance.findOne r s t coll = Some (i, d) →
  (length (records_for (r, s, t) coll) ≤ 1)%nat →
  records_for (r, s, t) coll = [d] ∧ records_for (r, s, t) (drop (S i) coll) = [].
Proof.
  unfold Attendance.findOne, records_for. intros Hf Hlen.
  pose proof (filter_before_find _ _ _ _ Hf) as Hbefore.
  apply list_find_Some in Hf as (Hi & Hk & _).
  rewrite (filter_at _ _ _ _ Hi), Hbefore, filter_singleton_True in * by done.
  simpl in *. destruct (filter _ (drop _ _)); [done|]. simpl in Hlen. lia.
Qed.

Lemma records_for_insert_same_key k coll i d d' :
  coll !! i = Some d → Attendance.key d' = Attendance.key d →
  length (records_for k (<[i := d']> coll)) = length (records_for k coll).
Proof.
  unfold records_for. intros Hi Hk.
  rewrite (filter_at _ _ _ _ Hi), (filter_insert_at _ _ _ _ d' Hi), !length_app.
  f_equal. f_equal. rewrite !filter_singleton; [|exact []..].
  rewrite Hk. by destruct (decide _).
Qed.

(** ** POST /attendance/mark on the ledger *)

(** A mark request that passes the QR step and finds no present record
    writes [marked_record]: in place of the absent record if there is
    one, as a new record otherwise. *)
Lemma mark_writes rejects now today req st j session :
  mark_regNumber req ≠ "" → mark_subject req ≠ "" → mark_qrId req ≠ "" → today ≠ "" →
  QrSession.findOne (mark_qrId req) (QrSessions st) = Some (j, session) →
  now ≤ QrSession.expiresAt session →
  rejects (WAttendance (marked_record (mark_regNumber req) (mark_subject req) today)) = false →
  (∀ i record,
    Attendance.findOne (mark_regNumber req) (mark_subject req) today (Attendances st)
      = Some (i, record) → Attendance.status record = absent) →
  attendance_mark rejects now today req st =
  (Ok (Marked (marked_record (mark_regNumber req) (mark_subject req) today)),
   set_Attendances
     (λ coll,
       match Attendance.findOne (mark_regNumber req) (mark_subject req) today coll with
       | Some (i, _) => <[i := marked_record (mark_regNumber req) (mark_subject req) today]> coll
       | None => coll ++ [marked_record (mark_regNumber req) (mark_subject req) today]
       end) st).
Proof.
  intros H1 H2 H3 H4 Hs Hle Hw Habs. rewrite mark_unfold, Hs by done.
  destruct (Z.ltb_spec (QrSession.expiresAt session) now) as [|_]; [lia|].
  unfold set_Attendances.
  destruct (Attendance.findOne _ _ _ _) as [[i r]|] eqn:Hf; cbv zeta.
  - rewrite (Habs _ _ eq_refl).
    apply findOne_Some_inv in Hf as [_ [= -> -> ->]].
    unfold marked_record in *. rewrite Hw. unfold Attendance.valid. simpl.
    by rewrite !required_true.
  - unfold marked_record in *. rewrite Hw. unfold Attendance.valid. simpl.
    by rewrite !required_true.
Qed.

(** C1: with a valid, unexpired QR id and a key that is not yet marked
    present (and, as the ledger invariant has it, holds at most one
    record), two mark requests in a row leave exactly one record under the
    key, present with scoreChange +1: the first request writes it and is
    answered with it, the second is answered AlreadyMarked and leaves the
    store as the first one left it. *)
Theorem mark_twice_one_record rejects now1 now2 today req st j session :
  mark_regNumber req ≠ "" → mark_subject req ≠ "" → mark_qrId req ≠ "" → today ≠ "" →
  QrSession.findOne (mark_qrId req) (QrSessions st) = Some (j, session) →
  now1 ≤ QrSession.expiresAt session →
  now2 ≤ QrSession.expiresAt session →
  rejects (WAttendance (Attendance.mk (mark_regNumber req) (mark_subject req) today present 1))
    = false →
  (length (records_for (mark_regNumber req, mark_subject req, today) (Attendances st)) ≤ 1)%nat →
  (∀ i record,
    Attendance.findOne (mark_regNumber req) (mark_subject req) today (Attendances st)
      = Some (i, record) → Attendance.status record = absent) →
  ∃ st1,
    attendance_mark rejects now1 today req st
      = (Ok (Marked (Attendance.mk (mark_regNumber req) (mark_subject req) today present 1)), st1) ∧
    attendance_mark rejects now2 today req st1 = (Ok AlreadyMarked, st1) ∧
    records_for (mark_regNumber req, mark_subject req, today) (Attendances st1)
      = [Attendance.mk (mark_regNumber req) (mark_subject req) today present 1].
Proof.
  intros H1 H2 H3 H4 Hs Hle1 Hle2 Hw Hone Habs.
  eexists. split; [by eapply mark_writes|].
  set (rec := marked_record (mark_regNumber req) (mark_subject req) today).
  assert (Attendance.key rec = (mark_regNumber req, mark_subject req, today)) as Hkey by done.
  rewrite mark_unfold by done. simpl. rewrite Hs.
  destruct (Z.ltb_spec (QrSession.expiresAt session) now2) as [|_]; [lia|].
  destruct (Attendance.findOne _ _ _ (Attendances st)) as [[i r]|] eqn:Hf.
  - unfold Attendance.findOne in *.
    rewrite (list_find_insert_same _ _ _ _ rec Hf Hkey). simpl. split; [done|].
    destruct (records_for_sole _ _ _ _ _ _ Hf Hone) as [_ Hrest].
    unfold records_for in *.
    pose proof (filter_before_find _ _ _ _ Hf) as Hbefore.
    apply list_find_Some in Hf as (Hi & _ & _).
    rewrite (filter_insert_at _ _ _ _ rec Hi), Hbefore, Hrest.
    by rewrite filter_cons_True.
  - unfold Attendance.findOne in *.
    rewrite (list_find_snoc _ _ rec Hf Hkey). simpl. split; [done|].
    apply findOne_None_records in Hf. unfold records_for in *.
    rewrite filter_app, Hf. by rewrite filter_cons_True.
Qed.

(** C2: with a valid, unexpired QR id, a mark request for a key whose
    record is absent (whatever its scoreChange, -3 after the sweep)
    rewrites that record in place to present with scoreChange +1: the
    record sits at the same position, every other position is untouched,
    the collection has the same length, and no key gains a record. *)
Theorem mark_upgrades_absent rejects now today req st j session i record :
  mark_regNumber req ≠ "" → mark_subject req ≠ "" → mark_qrId req ≠ "" → today ≠ "" →
  QrSession.findOne (mark_qrId req) (QrSessions st) = Some (j, session) →
  now ≤ QrSession.expiresAt session →
  Attendance.findOne (mark_regNumber req) (mark_subject req) today (Attendances st)
    = Some (i, record) →
  Attendance.status record = absent →
  rejects (WAttendance (Attendance.mk (mark_regNumber req) (mark_subject req) today present 1))
    = false →
  ∃ st1,
    attendance_mark rejects now today req st
      = (Ok (Marked (Attendance.mk (mark_regNumber req) (mark_subject req) today present 1)), st1) ∧
    Attendances st1 !! i
      = Some (Attendance.mk (mark_regNumber req) (mark_subject req) today present 1) ∧
    (∀ i', i' ≠ i → Attendances st1 !! i' = Attendances st !! i') ∧
    length (Attendances st1) = length (Attendances st) ∧
    (∀ k, length (records_for k (Attendances st1)) = length (records_for k (Attendances st))).
Proof.
  intros H1 H2 H3 H4 Hs Hle Hf Habs Hw.
  eexists. split.
  { eapply mark_writes; try done. intros i' r' Hf'. rewrite Hf in Hf'. by simplify_eq. }
  simpl. rewrite Hf.
  apply findOne_Some_inv in Hf as [Hi Hk]. split_and!.
  - apply list_lookup_insert_eq. by eapply lookup_lt_Some.
  - intros i' Hne. by apply list_lookup_insert_ne.
  - apply length_insert.
  - intros k. eapply records_for_insert_same_key; [done|]. by rewrite Hk.
Qed.

(** C10: the subject stored in the QR session plays no part in marking.
    With a valid, unexpired QR id whose session was created for subject
    [A], a mark request naming any subject [B] (no relation to [A] or to
    the known subjects is asked) for a key not yet marked present is
    answered with the present/+1 record for (regNumber, B, today), and
    that record is the one the ledger then holds for the key. *)
Theorem mark_ignores_session_subject rejects now today regNumber A B qrId st j session :
  regNumber ≠ "" → B ≠ "" → qrId ≠ "" → today ≠ "" →
  QrSession.findOne qrId (QrSessions st) = Some (j, session) →
  QrSession.subject session = A →
  now ≤ QrSession.expiresAt session →
  rejects (WAttendance (Attendance.mk regNumber B today present 1)) = false →
  (∀ i record,
    Attendance.findOne regNumber B today (Attendances st) = Some (i, record) →
    Attendance.status record = absent) →
  ∃ st1 i,
    attendance_mark rejects now today (mkMarkBody regNumber B qrId) st
      = (Ok (Marked (Attendance.mk regNumber B today present 1)), st1) ∧
    Attendance.findOne regNumber B today (Attendances st1)
      = Some (i, Attendance.mk regNumber B today present 1).
Proof.
  intros H1 H2 H3 H4 Hs _ Hle Hw Habs.
  pose proof (mark_writes rejects now today (mkMarkBody regNumber B qrId) st j session
                H1 H2 H3 H4 Hs Hle Hw Habs) as Hmark.
  simpl in Hmark. rewrite Hmark. clear Hmark.
  destruct (Attendance.findOne _ _ _ (Attendances st)) as [[i r]|] eqn:Hf.
  - eexists _, i. split; [done|]. simpl. rewrite Hf.
    by eapply (list_find_insert_same _ _ _ _ _ Hf).
  - eexists _, _. split; [done|]. simpl. rewrite Hf.
    by eapply (list_find_snoc _ _ _ Hf).
Qed.

(** ** POST /attendance/decrement *)

Lemma decrement_unfold rejects today req st :
  attendance_decrement rejects today req st =
  match Attendance.findOne (dec_regNumber req) (dec_subject req) today (Attendances st) with
  | None =>
    let record := absent_record (dec_regNumber req) (dec_subject req) today in
    if negb (Attendance.valid record) then (Throw ValidationError, st)
    else if rejects (WAttendance record) then (Throw StoreError, st)
    else (Ok AbsentRecorded, set_Attendances (λ coll, coll ++ [record]) st)
  | Some (_, record) =>
    match Attendance.status record with
    | absent => (Ok AlreadyAbsent, st)
    | present => (Ok NoPenalty, st)
    end
  end.
Proof.
  unfold attendance_decrement, mbind, M_bind, Attendance_findOne, gets. simpl.
  destruct (Attendance.findOne _ _ _ _) as [[i record]|].
  - by destruct (Attendance.status record).
  - unfold Attendance_create, absent_record. cbv zeta.
    destruct (negb _); [done|]. by destruct (rejects _).
Qed.

Lemma repeat_request_noop n (h : M Response) r st :
  h st = (Ok r, st) → repeat_request n h st = (Ok (replicate n r), st).
Proof.
  intros Hh. induction n as [|n IH]; [done|].
  simpl. unfold mbind, M_bind in *. by rewrite Hh, IH.
Qed.

(** C3: for a key with no record, any number n >= 1 of decrement requests
    in a row leaves exactly one record under the key, absent with
    scoreChange -3, appended by the first request; the later requests are
    answered AlreadyAbsent.  On a key whose record is absent the request
    is answered AlreadyAbsent, on a key whose record is present it is
    answered NoPenalty, and in both cases the store is left as it was. *)
Theorem decrement_idempotent rejects today req st :
  dec_regNumber req ≠ "" → dec_subject req ≠ "" → today ≠ "" →
  rejects (WAttendance (Attendance.mk (dec_regNumber req) (dec_subject req) today absent (-3)))
    = false →
  (Attendance.findOne (dec_regNumber req) (dec_subject req) today (Attendances st) = None →
    ∀ n, (1 ≤ n)%nat →
    ∃ st1,
      repeat_request n (attendance_decrement rejects today req) st
        = (Ok (AbsentRecorded :: replicate (n - 1) AlreadyAbsent), st1) ∧
      Attendances st1
        = Attendances st
          ++ [Attendance.mk (dec_regNumber req) (dec_subject req) today absent (-3)] ∧
      records_for (dec_regNumber req, dec_subject req, today) (Attendances st1)
        = [Attendance.mk (dec_regNumber req) (dec_subject req) today absent (-3)]) ∧
  (∀ i record,
    Attendance.findOne (dec_regNumber req) (dec_subject req) today (Attendances st)
      = Some (i, record) →
    Attendance.status record = absent →
    attendance_decrement rejects today req st = (Ok AlreadyAbsent, st)) ∧
  (∀ i record,
    Attendance.findOne (dec_regNumber req) (dec_subject req) today (Attendances st)
      = Some (i, record) →
    Attendance.status record = present →
    attendance_decrement rejects today req st = (Ok NoPenalty, st)).
Proof.
  intros H1 H2 H3 Hw. split_and!.
  - intros Hnone [|n] Hn; [lia|]. clear Hn.
    set (rec := absent_record (dec_regNumber req) (dec_subject req) today).
    assert (Attendance.key rec = (dec_regNumber req, dec_subject req, today)) as Hkey by done.
    exists (set_Attendances (λ coll, coll ++ [rec]) st).
    assert (attendance_decrement rejects today req st
            = (Ok AbsentRecorded, set_Attendances (λ coll, coll ++ [rec]) st)) as Hfirst.
    { rewrite decrement_unfold, Hnone. cbv zeta. fold rec.
      rewrite (valid_key rec _ _ _ Hkey) by done. simpl.
      unfold rec, absent_record. by rewrite Hw. }
    assert (attendance_decrement rejects today req (set_Attendances (λ coll, coll ++ [rec]) st)
            = (Ok AlreadyAbsent, set_Attendances (λ coll, coll ++ [rec]) st)) as Hnext.
    { rewrite decrement_unfold. simpl. unfold Attendance.findOne in *.
      by rewrite (list_find_snoc _ _ rec Hnone Hkey). }
    split_and!.
    + simpl. unfold mbind at 1, M_bind at 1. rewrite Hfirst.
      unfold mbind, M_bind. rewrite (repeat_request_noop _ _ _ _ Hnext).
      by rewrite Nat.sub_0_r.
    + done.
    + simpl. apply findOne_None_records in Hnone. unfold records_for in *.
      rewrite filter_app, Hnone. by rewrite filter_cons_True.
  - intros i record Hf Hst. by rewrite decrement_unfold, Hf, Hst.
  - intros i record Hf Hst. by rewrite decrement_unfold, Hf, Hst.
Qed.

(** ** The daily cron *)

Lemma M_bind_run {A B} (m : M A) (f : A → M B) st :
  (m ≫= f) st
  = match m st with
    | (Ok a, st') => f a st'
    | (Throw e, st') => (Throw e, st')
    end.
Proof. done. Qed.

Lemma for_of_app {A} (xs ys : list A) (body : A → M unit) st :
  for_of (xs ++ ys) body st = (_ ← for_of xs body; for_of ys body) st.
Proof.
  revert st. induction xs as [|x xs IH]; intros st; [done|].
  simpl. unfold mbind, M_bind in *. destruct (body x st) as [[[]|e] st']; [|done].
  apply IH.
Qed.

Lemma for_of_ext {A} (xs : list A) (f g : A → M unit) st :
  (∀ x st', f x st' = g x st') → for_of xs f st = for_of xs g st.
Proof.
  intros Hfg. revert st. induction xs as [|x xs IH]; intros st; [done|].
  simpl. unfold mbind, M_bind. rewrite Hfg. destruct (g x st) as [[[]|e] st']; [|done].
  apply IH.
Qed.

(** The loop nest visits the pairs of [students × subjects] row by row. *)
Lemma for_of_nested {A B} (xs : list A) (ys : list B) (body : A → B → M unit) st :
  for_of xs (λ x, for_of ys (body x)) st
  = for_of (x ← xs; y ← ys; [(x, y)]) (λ p, body p.1 p.2) st.
Proof.
  revert st. induction xs as [|x xs IH]; intros st; [done|].
  simpl. rewrite for_of_app, !M_bind_run.
  assert (∀ st0, for_of ys (body x) st0
                 = for_of (ys ≫= λ y, [(x, y)]) (λ p, body p.1 p.2) st0) as Hrow.
  { clear. induction ys as [|y ys IHy]; intros st0; [done|].
    simpl. rewrite !M_bind_run.
    destruct (body x y st0) as [[[]|e] st']; [|done]. apply IHy. }
  rewrite Hrow. destruct (for_of _ _ st) as [[[]|e] st']; [|done]. apply IH.
Qed.

Lemma daily_decrement_unfold rejects today st :
  daily_decrement rejects today st
  = for_of (sweep_pairs st)
      (λ p,
        record ← Attendance_findOne (Student.regNumber p.1) (Subject.name p.2) today;
        match record with
        | None =>
          Attendance_create rejects
            (Attendance.mk (Student.regNumber p.1) (Subject.name p.2) today absent (-3))
        | Some _ => mret tt
        end) st.
Proof.
  unfold daily_decrement, sweep_pairs. unfold mbind at 1 2, M_bind, gets.
  by rewrite for_of_nested.
Qed.

Lemma elem_of_sweep_pairs st student subj :
  (student, subj) ∈ sweep_pairs st ↔ student ∈ Students st ∧ subj ∈ Subjects st.
Proof.
  unfold sweep_pairs. rewrite list_elem_of_bind. split.
  - intros (x & Hin & Hx). apply list_elem_of_bind in Hin as (y & Hin & Hy).
    apply list_elem_of_singleton in Hin. by simplify_eq.
  - intros [Hx Hy]. exists student. split; [|done].
    apply list_elem_of_bind. exists subj. split; [|done]. by apply list_elem_of_singleton.
Qed.

(** With every write accepted, the loop is the fold of [sweep_step]. *)
Lemma sweep_loop_accepted rejects today (ps : list (Student.t * Subject.t)) st :
  today ≠ "" →
  (∀ p, p ∈ ps →
    Student.regNumber p.1 ≠ "" ∧ Subject.name p.2 ≠ "" ∧
    rejects (WAttendance (absent_record (Student.regNumber p.1) (Subject.name p.2) today))
      = false) →
  for_of ps
    (λ p,
      record ← Attendance_findOne (Student.regNumber p.1) (Subject.name p.2) today;
      match record with
      | None =>
        Attendance_create rejects
          (Attendance.mk (Student.regNumber p.1) (Subject.name p.2) today absent (-3))
      | Some _ => mret tt
      end) st
  = (Ok tt, set_Attendances (λ coll, foldl (sweep_step today) coll ps) st).
Proof.
  intros Ht. revert st. induction ps as [|p ps IH]; intros st Hps.
  - by destruct st.
  - destruct (Hps p) as (Hr & Hn & Hw); [by left|].
    simpl. unfold mbind at 1, M_bind at 1.
    unfold mbind at 1, M_bind at 1, Attendance_findOne, gets.
    unfold sweep_step at 2.
    destruct (Attendance.findOne _ _ _ _) as [[i r]|] eqn:Hf.
    + unfold mret, M_ret. rewrite IH by (intros; apply Hps; by right).
      unfold set_Attendances. simpl. by rewrite Hf.
    + unfold Attendance_create.
      fold (absent_record (Student.regNumber p.1) (Subject.name p.2) today).
      rewrite Hw, (valid_key _ (Student.regNumber p.1) (Subject.name p.2) today) by done.
      simpl. rewrite IH by (intros; apply Hps; by right).
      unfold set_Attendances, modify. simpl. by rewrite Hf.
Qed.

Lemma records_for_sweep_step today coll p k :
  records_for k (sweep_step today coll p)
  = if decide (k = (Student.regNumber p.1, Subject.name p.2, today) ∧ records_for k coll = [])
    then [absent_record (Student.regNumber p.1) (Subject.name p.2) today]
    else records_for k coll.
Proof.
  unfold sweep_step.
  destruct (Attendance.findOne _ _ _ _) as [[i r]|] eqn:Hf.
  - destruct (decide _) as [[-> Hnil]|]; [|done].
    apply findOne_None_records in Hnil. congruence.
  - apply findOne_None_records in Hf. unfold records_for in *.
    rewrite filter_app. destruct (decide _) as [[-> Hnil]|Hno].
    + rewrite Hf. by rewrite filter_cons_True.
    + rewrite filter_cons_False, app_nil_r; [done|].
      unfold absent_record, Attendance.key. simpl. intros <-. by apply Hno.
Qed.

Lemma sweep_keeps today ps coll k :
  records_for k coll ≠ [] →
  records_for k (foldl (sweep_step today) coll ps) = records_for k coll.
Proof.
  revert coll. induction ps as [|p ps IH]; intros coll Hne; [done|].
  simpl. assert (records_for k (sweep_step today coll p) = records_for k coll) as Hstep.
  { rewrite records_for_sweep_step. destruct (decide _) as [[_ ?]|]; done. }
  rewrite IH; by rewrite Hstep.
Qed.

Lemma sweep_fills today ps coll p :
  p ∈ ps →
  records_for (Student.regNumber p.1, Subject.name p.2, today) coll = [] →
  records_for (Student.regNumber p.1, Subject.name p.2, today) (foldl (sweep_step today) coll ps)
  = [absent_record (Student.regNumber p.1) (Subject.name p.2) today].
Proof.
  revert coll. induction ps as [|p0 ps IH]; intros coll Hin Hnil.
  - by apply elem_of_nil in Hin.
  - simpl.
    pose proof (records_for_sweep_step today coll p0
                  (Student.regNumber p.1, Subject.name p.2, today)) as Hstep.
    destruct (decide _) as [[Hk _]|Hno].
    + rewrite sweep_keeps by (by rewrite Hstep). rewrite Hstep.
      injection Hk as -> ->. done.
    + apply elem_of_cons in Hin as [->|Hin]; [by destruct Hno|].
      apply IH; [done|]. by rewrite Hstep.
Qed.

Lemma sweep_appends today ps coll :
  ∃ added,
    foldl (sweep_step today) coll ps = coll ++ added ∧
    Forall (λ d,
      Attendance.status d = absent ∧ Attendance.scoreChange d = -3 ∧
      Attendance.date d = today ∧ records_for (Attendance.key d) coll = [] ∧
      ∃ p, p ∈ ps ∧ Attendance.regNumber d = Student.regNumber p.1
                 ∧ Attendance.subject d = Subject.name p.2) added.
Proof.
  revert coll. induction ps as [|p ps IH]; intros coll.
  - exists []. by rewrite app_nil_r.
  - simpl. destruct (IH (sweep_step today coll p)) as (added & -> & Hadded).
    unfold sweep_step in *.
    destruct (Attendance.findOne _ _ _ _) as [[i r]|] eqn:Hf.
    + exists added. split; [done|]. eapply Forall_impl; [done|].
      intros d (? & ? & ? & ? & q & ? & ?). split_and!; try done.
      exists q. split; [by right|done].
    + eexists. rewrite <- app_assoc. split; [done|].
      apply findOne_None_records in Hf. apply Forall_app. split.
      * apply Forall_singleton. split_and!; try done. exists p. split; [by left|done].
      * eapply Forall_impl; [done|].
        intros d (? & ? & ? & Hnil & q & ? & ?). split_and!; try done.
        -- unfold records_for in *. rewrite filter_app in Hnil.
           by apply app_eq_nil in Hnil as [? _].
        -- exists q. split; [by right|done].
Qed.

(** C6: with every write of the run accepted, the daily sweep completes,
    keeps every stored record where it is, and then, for every pair of a
    known student and a known subject: a pair that had records for today
    has the same records afterwards, and a pair that had none has exactly
    one, absent with scoreChange -3.  Every record the sweep adds is such
    an absence record for a pair that had none. *)
Theorem daily_decrement_fills_absences rejects today st :
  today ≠ "" →
  (∀ student, student ∈ Students st → Student.regNumber student ≠ "") →
  (∀ subj, subj ∈ Subjects st → Subject.name subj ≠ "") →
  (∀ student subj, student ∈ Students st → subj ∈ Subjects st →
    rejects (WAttendance
      (Attendance.mk (Student.regNumber student) (Subject.name subj) today absent (-3)))
    = false) →
  ∃ st1 added,
    daily_decrement rejects today st = (Ok tt, st1) ∧
    Attendances st1 = Attendances st ++ added ∧
    Forall (λ d,
      Attendance.status d = absent ∧ Attendance.scoreChange d = -3 ∧
      Attendance.date d = today ∧ records_for (Attendance.key d) (Attendances st) = []) added ∧
    ∀ student subj, student ∈ Students st → subj ∈ Subjects st →
      (records_for (Student.regNumber student, Subject.name subj, today) (Attendances st) ≠ [] →
        records_for (Student.regNumber student, Subject.name subj, today) (Attendances st1)
        = records_for (Student.regNumber student, Subject.name subj, today) (Attendances st)) ∧
      (records_for (Student.regNumber student, Subject.name subj, today) (Attendances st) = [] →
        records_for (Student.regNumber student, Subject.name subj, today) (Attendances st1)
        = [Attendance.mk (Student.regNumber student) (Subject.name subj) today absent (-3)]).
Proof.
  intros Ht Hstu Hsub Hw.
  destruct (sweep_appends today (sweep_pairs st) (Attendances st)) as (added & Hfold & Hadded).
  exists (set_Attendances (λ coll, foldl (sweep_step today) coll (sweep_pairs st)) st), added.
  split_and!.
  - rewrite daily_decrement_unfold. apply sweep_loop_accepted; [done|].
    intros [student subj] [? ?]%elem_of_sweep_pairs. simpl. split_and!; auto.
    by apply Hw.
  - done.
  - eapply Forall_impl; [done|]. intros d (? & ? & ? & ? & _). done.
  - intros student subj Hs Hj. simpl. split.
    + apply sweep_keeps.
    + intros Hnil.
      apply (sweep_fills today (sweep_pairs st) (Attendances st) (student, subj));
        [by apply elem_of_sweep_pairs|done].
Qed.

(** C7 (the cron as written): the loop has no handler around its write.
    With students 21CS01 and 21CS02, subject Math, an empty ledger and a
    persistence layer that rejects only the write for (21CS01, Math),
    the sweep ends with that rejection and the pair (21CS02, Math), whose
    own write would be accepted, is left without a record; with every
    write accepted that pair gets its absence record. *)
Theorem daily_decrement_stops_at_rejected_write :
  daily_decrement rejects_first "2024-01-01" demo = (Throw StoreError, demo) ∧
  rejects_first (WAttendance (absent_record "21CS02" "Math" "2024-01-01")) = false ∧
  records_for ("21CS02", "Math", "2024-01-01")
    (Attendances (daily_decrement rejects_first "2024-01-01" demo).2) = [] ∧
  records_for ("21CS02", "Math", "2024-01-01")
    (Attendances (daily_decrement no_faults "2024-01-01" demo).2)
  = [absent_record "21CS02" "Math" "2024-01-01"].
Proof. vm_compute. done. Qed.

(** ** GET /attendance/:regNumber *)

Lemma string_leb_trans (s1 s2 s3 : string) :
  String.leb s1 s2 = true → String.leb s2 s3 = true → String.leb s1 s3 = true.
Proof.
  unfold String.leb. revert s2 s3.
  induction s1 as [|c1 s1 IH]; intros [|c2 s2] [|c3 s3]; simpl; try done.
  unfold Ascii.compare.
  destruct (N.compare_spec (N_of_ascii c1) (N_of_ascii c2)) as [E12|L12|G12];
    destruct (N.compare_spec (N_of_ascii c2) (N_of_ascii c3)) as [E23|L23|G23];
    destruct (N.compare_spec (N_of_ascii c1) (N_of_ascii c3)) as [E13|L13|G13];
    try done; try lia.
  apply IH.
Qed.

#[global] Instance date_ge_trans : Transitive date_ge.
Proof. intros a b c Hab Hbc. unfold date_ge in *. by eapply string_leb_trans. Qed.

Lemma insert_by_date_desc_perm d l : insert_by_date_desc d l ≡ₚ d :: l.
Proof.
  induction l as [|x l IH]; [done|]. simpl.
  destruct (String.leb _ _); [done|]. rewrite IH. apply Permutation_swap.
Qed.

Lemma sort_by_date_desc_perm l : sort_by_date_desc l ≡ₚ l.
Proof.
  induction l as [|x l IH]; [done|]. unfold sort_by_date_desc in *. simpl.
  by rewrite insert_by_date_desc_perm, IH.
Qed.

Lemma insert_by_date_desc_sorted d l :
  Sorted date_ge l → Sorted date_ge (insert_by_date_desc d l).
Proof.
  induction 1 as [|x l Hl IH Hhd]; simpl.
  - by repeat constructor.
  - destruct (String.leb (Attendance.date x) (Attendance.date d)) eqn:Hcmp.
    + constructor; [by constructor|]. by constructor.
    + assert (date_ge x d) as Hxd.
      { unfold date_ge. destruct (String.leb_total (Attendance.date x) (Attendance.date d));
          congruence. }
      constructor; [done|].
      destruct Hhd as [|y l' Hxy]; simpl; [by constructor|].
      destruct (String.leb (Attendance.date y) (Attendance.date d)); by constructor.
Qed.

Lemma sort_by_date_desc_sorted l : Sorted date_ge (sort_by_date_desc l).
Proof.
  induction l as [|x l IH]; [constructor|].
  unfold sort_by_date_desc in *. simpl. by apply insert_by_date_desc_sorted.
Qed.

(** C8: the history route answers with a list (built in full before the
    response is sent) that holds exactly the stored records of the given
    registration number, whatever their subject and date, each as often as
    it is stored, in descending order of date; the store is not changed. *)
Theorem history_complete_sorted regNumber st :
  ∃ records,
    attendance_history regNumber st = (Ok (History records), st) ∧
    records ≡ₚ filter (λ d, Attendance.regNumber d = regNumber) (Attendances st) ∧
    (∀ d, d ∈ records ↔ d ∈ Attendances st ∧ Attendance.regNumber d = regNumber) ∧
    StronglySorted date_ge records.
Proof.
  eexists. split; [reflexivity|]. unfold Attendance.find.
  pose proof (sort_by_date_desc_perm
                (filter (λ d, Attendance.regNumber d = regNumber) (Attendances st))) as Hperm.
  split_and!.
  - done.
  - intros d. rewrite Hperm, list_elem_of_filter. tauto.
  - apply Sorted_StronglySorted; [exact date_ge_trans|]. apply sort_by_date_desc_sorted.
Qed.

(** ** Teacher credentials *)

Lemma authenticate_lookup jwt_verify now authorization next st id teacher token :
  presents authorization token →
  jwt_verify now token = Some id →
  Teachers st !! id = Some teacher →
  authenticate jwt_verify now authorization next st
  = if bool_decide (token ∈ Teacher.tokens teacher) then next id teacher token st
    else (Ok InvalidToken, st).
Proof.
  intros (authHeader & -> & Hf & Hp & Ht) Hv Hid.
  unfold authenticate. rewrite Hf, Hp, Ht, Hv. simpl.
  rewrite M_bind_run. unfold gets, Teacher.findById. rewrite Hid.
  by destruct (bool_decide _).
Qed.

(** C9: a logout request presenting a credential of a teacher succeeds
    and rewrites that teacher's token list to the old list without the
    presented credential: every other token stays, in its place and as
    often as before.  A later request presenting another of the teacher's
    credentials passes the authentication middleware (as that teacher),
    while one presenting the logged-out credential is refused. *)
Theorem logout_removes_only_presented rejects jwt_verify now authorization token id teacher st :
  presents authorization token →
  jwt_verify now token = Some id →
  Teachers st !! id = Some teacher →
  token ∈ Teacher.tokens teacher →
  Teacher.valid teacher = true →
  rejects (WTeacher (Teacher.mk (Teacher.email teacher) (Teacher.password teacher)
                       (filter (λ t, t ≠ token) (Teacher.tokens teacher)))) = false →
  ∃ st1 teacher1,
    logout rejects jwt_verify now authorization st = (Ok LogoutSuccessful, st1) ∧
    Teachers st1 !! id = Some teacher1 ∧
    (∀ id', id' ≠ id → Teachers st1 !! id' = Teachers st !! id') ∧
    Teacher.tokens teacher1 = filter (λ t, t ≠ token) (Teacher.tokens teacher) ∧
    (token ∉ Teacher.tokens teacher1) ∧
    (∀ other, other ≠ token →
      (other ∈ Teacher.tokens teacher1 ↔ other ∈ Teacher.tokens teacher)) ∧
    (∀ now' authorization' other next,
      other ≠ token → other ∈ Teacher.tokens teacher →
      presents authorization' other → jwt_verify now' other = Some id →
      authenticate jwt_verify now' authorization' next st1 = next id teacher1 other st1) ∧
    (∀ next, authenticate jwt_verify now authorization next st1 = (Ok InvalidToken, st1)).
Proof.
  intros Hp Hv Hid Hin Hvalid Hw.
  set (teacher1 := Teacher.mk (Teacher.email teacher) (Teacher.password teacher)
                     (filter (λ t, t ≠ token) (Teacher.tokens teacher))) in *.
  exists (set_Teachers (λ coll, <[id := teacher1]> coll) st), teacher1.
  assert ((Teachers (set_Teachers (λ coll, <[id := teacher1]> coll) st)) !! id
          = Some teacher1) as Hid1.
  { simpl. apply list_lookup_insert_eq. by eapply lookup_lt_Some. }
  assert (∀ other, other ≠ token →
            (other ∈ Teacher.tokens teacher1 ↔ other ∈ Teacher.tokens teacher)) as Hothers.
  { intros other Hne. simpl. rewrite list_elem_of_filter. tauto. }
  assert (token ∉ Teacher.tokens teacher1) as Hgone.
  { simpl. rewrite list_elem_of_filter. tauto. }
  split_and!; try done.
  - unfold logout. rewrite (authenticate_lookup _ _ _ _ _ _ _ _ Hp Hv Hid).
    rewrite bool_decide_eq_true_2 by done. fold teacher1.
    rewrite M_bind_run. unfold Teacher_save.
    assert (Teacher.valid teacher1 = true) as -> by done.
    simpl. by rewrite Hw.
  - intros id' Hne. simpl. by apply list_lookup_insert_ne.
  - intros now' authorization' other next Hne Hother Hp' Hv'.
    rewrite (authenticate_lookup _ _ _ _ _ _ _ _ Hp' Hv' Hid1).
    rewrite bool_decide_eq_true_2; [done|]. by apply Hothers.
  - intros next. rewrite (authenticate_lookup _ _ _ _ _ _ _ _ Hp Hv Hid1).
    by rewrite bool_decide_eq_false_2.
Qed.

(** ** The ledger invariant is kept by every route *)

Lemma ledger_ok_snoc coll d :
  ledger_ok coll → records_for (Attendance.key d) coll = [] → ledger_ok (coll ++ [d]).
Proof.
  intros Hok Hnil k. unfold records_for in *. rewrite filter_app, length_app.
  destruct (decide (Attendance.key d = k)) as [<-|Hne].
  - rewrite Hnil, filter_cons_True by done. simpl. lia.
  - rewrite filter_cons_False by done. specialize (Hok k). simpl.
    unfold records_for in Hok. lia.
Qed.

Lemma ledger_ok_insert coll i d d' :
  ledger_ok coll → coll !! i = Some d → Attendance.key d' = Attendance.key d →
  ledger_ok (<[i := d']> coll).
Proof.
  intros Hok Hi Hk k. rewrite (records_for_insert_same_key k coll i d d') by done. apply Hok.
Qed.

Lemma mark_missing_data rejects now today req st :
  falsy (mark_regNumber req) || falsy (mark_subject req) || falsy (mark_qrId req) = true →
  attendance_mark rejects now today req st = (Ok MissingData, st).
Proof. intros H. unfold attendance_mark, try_catch. by rewrite H. Qed.

Lemma mark_preserves_ledger rejects now today req st :
  ledger_ok (Attendances st) →
  ledger_ok (Attendances (attendance_mark rejects now today req st).2).
Proof.
  intros Hok.
  destruct (falsy (mark_regNumber req) || falsy (mark_subject req) || falsy (mark_qrId req))
    eqn:Hmiss.
  { by rewrite mark_missing_data. }
  apply orb_false_elim in Hmiss as [[H1 H2]%orb_false_elim H3].
  unfold falsy in *. apply bool_decide_eq_false in H1, H2, H3.
  rewrite mark_unfold by done.
  destruct (QrSession.findOne _ _) as [[j session]|]; [|done].
  destruct (_ <? now); [done|].
  destruct (Attendance.findOne _ _ _ _) as [[i r]|] eqn:Hf; cbv zeta.
  - destruct (Attendance.status r); [done|].
    destruct (negb _); [done|]. destruct (rejects _); [done|]. simpl.
    apply findOne_Some_inv in Hf as [Hi _]. by eapply ledger_ok_insert.
  - destruct (negb _); [done|]. destruct (rejects _); [done|]. simpl.
    apply ledger_ok_snoc; [done|]. by apply findOne_None_records.
Qed.

Lemma decrement_preserves_ledger rejects today req st :
  ledger_ok (Attendances st) →
  ledger_ok (Attendances (attendance_decrement rejects today req st).2).
Proof.
  intros Hok. rewrite decrement_unfold.
  destruct (Attendance.findOne _ _ _ _) as [[i r]|] eqn:Hf; cbv zeta.
  - by destruct (Attendance.status r).
  - destruct (negb _); [done|]. destruct (rejects _); [done|]. simpl.
    apply ledger_ok_snoc; [done|]. by apply findOne_None_records.
Qed.

(** A property of the store kept by every turn of a loop is kept by the
    loop, however it ends. *)
Lemma for_of_invariant {A} (I : Store → Prop) (xs : list A) (body : A → M unit) st :
  (∀ x st0, I st0 → I (body x st0).2) → I st → I (for_of xs body st).2.
Proof.
  intros Hbody. revert st. induction xs as [|x xs IH]; intros st Hst; [done|].
  simpl. rewrite M_bind_run. specialize (Hbody x st Hst).
  destruct (body x st) as [[[]|e] st']; [|done]. by apply IH.
Qed.

Lemma daily_decrement_preserves_ledger rejects today st :
  ledger_ok (Attendances st) →
  ledger_ok (Attendances (daily_decrement rejects today st).2).
Proof.
  intros Hok. rewrite daily_decrement_unfold.
  apply (for_of_invariant (λ st, ledger_ok (Attendances st))); [|done].
  clear. intros p st Hok. rewrite M_bind_run. unfold Attendance_findOne, gets.
  destruct (Attendance.findOne _ _ _ _) as [[i r]|] eqn:Hf; [done|].
  unfold Attendance_create.
  destruct (negb _); [done|]. destruct (rejects _); [done|]. simpl.
  apply ledger_ok_snoc; [done|]. by apply findOne_None_records.
Qed.

(** ** The theorems at work on the demo store *)

Lemma mark_twice_one_record_witness :
  ∃ st1,
    attendance_mark no_faults 2000 "2024-01-01" demo_mark demo_swept
      = (Ok (Marked (Attendance.mk "21CS01" "Math" "2024-01-01" present 1)), st1) ∧
    attendance_mark no_faults 3000 "2024-01-01" demo_mark st1 = (Ok AlreadyMarked, st1) ∧
    records_for ("21CS01", "Math", "2024-01-01") (Attendances st1)
      = [Attendance.mk "21CS01" "Math" "2024-01-01" present 1].
Proof.
  apply (mark_twice_one_record no_faults 2000 3000 "2024-01-01" demo_mark demo_swept
           0%nat demo_session); try discriminate; try reflexivity.
  intros i record H. vm_compute in H. injection H as _ <-. reflexivity.
Defined.

Lemma mark_upgrades_absent_witness :
  ∃ st1,
    attendance_mark no_faults 2000 "2024-01-01" demo_mark demo_swept
      = (Ok (Marked (Attendance.mk "21CS01" "Math" "2024-01-01" present 1)), st1) ∧
    Attendances st1 !! 0%nat = Some (Attendance.mk "21CS01" "Math" "2024-01-01" present 1) ∧
    (∀ i', i' ≠ 0%nat → Attendances st1 !! i' = Attendances demo_swept !! i') ∧
    length (Attendances st1) = length (Attendances demo_swept) ∧
    (∀ k, length (records_for k (Attendances st1))
          = length (records_for k (Attendances demo_swept))).
Proof.
  apply (mark_upgrades_absent no_faults 2000 "2024-01-01" demo_mark demo_swept
           0%nat demo_session 0%nat (absent_record "21CS01" "Math" "2024-01-01"));
    try discriminate; reflexivity.
Defined.

Lemma mark_ignores_session_subject_witness :
  ∃ st1 i,
    attendance_mark no_faults 2000 "2024-01-01" (mkMarkBody "21CS01" "Physics" "Math-1-abc") demo
      = (Ok (Marked (Attendance.mk "21CS01" "Physics" "2024-01-01" present 1)), st1) ∧
    Attendance.findOne "21CS01" "Physics" "2024-01-01" (Attendances st1)
      = Some (i, Attendance.mk "21CS01" "Physics" "2024-01-01" present 1).
Proof.
  apply (mark_ignores_session_subject no_faults 2000 "2024-01-01" "21CS01" "Math" "Physics"
           "Math-1-abc" demo 0%nat demo_session); try discriminate; reflexivity.
Defined.

Lemma decrement_idempotent_witness :
  (Attendance.findOne "21CS01" "Math" "2024-01-01" (Attendances demo) = None →
    ∀ n, (1 ≤ n)%nat →
    ∃ st1,
      repeat_request n
        (attendance_decrement no_faults "2024-01-01" (mkDecrementBody "21CS01" "Math")) demo
        = (Ok (AbsentRecorded :: replicate (n - 1) AlreadyAbsent), st1) ∧
      Attendances st1
        = Attendances demo ++ [Attendance.mk "21CS01" "Math" "2024-01-01" absent (-3)] ∧
      records_for ("21CS01", "Math", "2024-01-01") (Attendances st1)
        = [Attendance.mk "21CS01" "Math" "2024-01-01" absent (-3)]) ∧
  (∀ i record,
    Attendance.findOne "21CS01" "Math" "2024-01-01" (Attendances demo) = Some (i, record) →
    Attendance.status record = absent →
    attendance_decrement no_faults "2024-01-01" (mkDecrementBody "21CS01" "Math") demo
      = (Ok AlreadyAbsent, demo)) ∧
  (∀ i record,
    Attendance.findOne "21CS01" "Math" "2024-01-01" (Attendances demo) = Some (i, record) →
    Attendance.status record = present →
    attendance_decrement no_faults "2024-01-01" (mkDecrementBody "21CS01" "Math") demo
      = (Ok NoPenalty, demo)).
Proof.
  apply (decrement_idempotent no_faults "2024-01-01" (mkDecrementBody "21CS01" "Math") demo);
    try discriminate; reflexivity.
Defined.

Lemma daily_decrement_fills_absences_witness :
  ∃ st1 added,
    daily_decrement no_faults "2024-01-01" demo_marked = (Ok tt, st1) ∧
    Attendances st1 = Attendances demo_marked ++ added ∧
    Forall (λ d,
      Attendance.status d = absent ∧ Attendance.scoreChange d = -3 ∧
      Attendance.date d = "2024-01-01" ∧
      records_for (Attendance.key d) (Attendances demo_marked) = []) added ∧
    ∀ student subj, student ∈ Students demo_marked → subj ∈ Subjects demo_marked →
      (records_for (Student.regNumber student, Subject.name subj, "2024-01-01")
         (Attendances demo_marked) ≠ [] →
        records_for (Student.regNumber student, Subject.name subj, "2024-01-01") (Attendances st1)
        = records_for (Student.regNumber student, Subject.name subj, "2024-01-01")
            (Attendances demo_marked)) ∧
      (records_for (Student.regNumber student, Subject.name subj, "2024-01-01")
         (Attendances demo_marked) = [] →
        records_for (Student.regNumber student, Subject.name subj, "2024-01-01") (Attendances st1)
        = [Attendance.mk (Student.regNumber student) (Subject.name subj) "2024-01-01"
             absent (-3)]).
Proof.
  apply (daily_decrement_fills_absences no_faults "2024-01-01" demo_marked).
  - discriminate.
  - apply Forall_forall. repeat constructor; discriminate.
  - apply Forall_forall. repeat constructor; discriminate.
  - reflexivity.
Defined.

Lemma logout_removes_only_presented_witness :
  ∃ st1 teacher1,
    logout no_faults demo_jwt 5 (Some "Bearer tok1") demo = (Ok LogoutSuccessful, st1) ∧
    Teachers st1 !! 0%nat = Some teacher1 ∧
    (∀ id', id' ≠ 0%nat → Teachers st1 !! id' = Teachers demo !! id') ∧
    Teacher.tokens teacher1 = filter (λ t, t ≠ "tok1") (Teacher.tokens demo_teacher) ∧
    ("tok1" ∉ Teacher.tokens teacher1) ∧
    (∀ other, other ≠ "tok1" →
      (other ∈ Teacher.tokens teacher1 ↔ other ∈ Teacher.tokens demo_teacher)) ∧
    (∀ now' authorization' other next,
      other ≠ "tok1" → other ∈ Teacher.tokens demo_teacher →
      presents authorization' other → demo_jwt now' other = Some 0%nat →
      authenticate demo_jwt now' authorization' next st1 = next 0%nat teacher1 other st1) ∧
    (∀ next, authenticate demo_jwt 5 (Some "Bearer tok1") next st1 = (Ok InvalidToken, st1)).
Proof.
  apply (logout_removes_only_presented no_faults demo_jwt 5 (Some "Bearer tok1") "tok1"
           0%nat demo_teacher demo); try reflexivity.
  - exists "Bearer tok1". repeat split; reflexivity.
  - by left.
Defined.

(** ** The authentication middleware *)

Lemma authenticate_for_authenticate sv now authorization next st :
  authenticate_for (λ r, r) sv now authorization next st
  = authenticate (jwt_verify sv) now authorization next st.
Proof. reflexivity. Qed.

Lemma authenticate_for_inv {R : Type} (reply : Response → R) sv now authorization
    (next : nat → Teacher.t → string → M R) st :
  (∃ r, (r = NoTokenProvided ∨ r = InvalidOrExpiredToken ∨ r = InvalidToken) ∧
        authenticate_for reply sv now authorization next st = (Ok (reply r), st)) ∨
  (∃ id teacher token,
      presents authorization token ∧ jwt_verify sv now token = Some id ∧
      Teachers st !! id = Some teacher ∧ token ∈ Teacher.tokens teacher ∧
      authenticate_for reply sv now authorization next st = next id teacher token st).
Proof.
  unfold authenticate_for.
  destruct authorization as [authHeader|]; [|left; eauto].
  destruct (falsy authHeader) eqn:Hf; [left; eauto|].
  destruct (String.prefix "Bearer " authHeader) eqn:Hp; [|left; eauto]. simpl.
  destruct (split " " authHeader !! 1%nat) as [token|] eqn:Ht; [|left; eauto 6].
  destruct (jwt_verify sv now token) as [id|] eqn:Hv; [|left; eauto 6].
  rewrite M_bind_run. unfold gets, Teacher.findById.
  destruct (Teachers st !! id) as [teacher|] eqn:Hid; [|left; eauto 6].
  destruct (bool_decide (token ∈ Teacher.tokens teacher)) eqn:Hin; [|left; eauto 6].
  right. exists id, teacher, token. split_and!; try done.
  - by exists authHeader.
  - by apply bool_decide_eq_true in Hin.
Qed.

(** X1: the middleware either answers 401 itself and leaves the store alone,
    or hands over to the route with a teacher that exists under the id
    signed into the token and that holds the token presented. *)
Theorem authenticate_for_cases {R : Type} (reply : Response → R) sv now authorization
    (next : nat → Teacher.t → string → M R) st :
  (∃ r, (r = NoTokenProvided ∨ r = InvalidOrExpiredToken ∨ r = InvalidToken) ∧
        authenticate_for reply sv now authorization next st = (Ok (reply r), st)) ∨
  (∃ id teacher token,
      presents authorization token ∧ jwt_verify sv now token = Some id ∧
      Teachers st !! id = Some teacher ∧ token ∈ Teacher.tokens teacher ∧
      authenticate_for reply sv now authorization next st = next id teacher token st).
Proof. apply authenticate_for_inv. Qed.

(** Case analysis on the middleware in front of a route. *)
Ltac auth_cases_in H :=
  match goal with
  | |- context [authenticate_for ?reply ?sv ?now ?authorization ?next ?st] =>
    pose proof (authenticate_for_inv reply sv now authorization next st) as H
  end.

Tactic Notation "auth_cases" "as" simple_intropattern(pat) :=
  let H := fresh in auth_cases_in H; destruct H as pat.

(** ** What a request can do to the store *)

Lemma for_of_rtc {A} (R : relation Store) (xs : list A) (body : A → M unit) st :
  (∀ x st0, rtc R st0 (body x st0).2) → rtc R st (for_of xs body st).2.
Proof.
  intros Hbody. revert st. induction xs as [|x xs IH]; intros st; [done|].
  simpl. rewrite M_bind_run. specialize (Hbody x st).
  destruct (body x st) as [[[]|e] st']; [|done]. etrans; [done|]. apply IH.
Qed.

Lemma Attendance_create_effect rejects d st :
  records_for (Attendance.key d) (Attendances st) = [] →
  (Attendance.status d = present ∧ Attendance.scoreChange d = 1) ∨
  (Attendance.status d = absent ∧ Attendance.scoreChange d = -3) →
  rtc effect st (Attendance_create rejects d st).2.
Proof.
  intros Hnil Hscore. unfold Attendance_create.
  destruct (Attendance.valid d) eqn:Hv; [|done]. simpl.
  destruct (rejects _); [done|]. apply rtc_once. by constructor.
Qed.

Lemma register_effect sv now salt req st : rtc effect st (register sv now salt req st).2.
Proof.
  unfold register, try_catch.
  destruct (falsy _ || falsy _); [done|].
  rewrite M_bind_run. unfold Teacher_findOne, gets.
  destruct (list_find _ _) as [[i x]|]; [done|].
  rewrite !M_bind_run. cbv zeta. unfold Teacher_create.
  destruct (Teacher.valid _) eqn:Hv; [|done]. simpl.
  rewrite M_bind_run. unfold gets.
  destruct (list_find _ _) as [[i x]|] eqn:Hdup; [done|].
  destruct (rejects_write sv _); [done|]. simpl.
  apply rtc_once. constructor; [done|].
  apply list_find_None in Hdup. by apply Forall_forall.
Qed.

Lemma Teacher_save_effect rejects id x tokens st :
  Teachers st !! id = Some x →
  rtc effect st
    (Teacher_save rejects id (Teacher.mk (Teacher.email x) (Teacher.password x) tokens) st).2.
Proof.
  intros Hid. unfold Teacher_save.
  destruct (negb _); [done|]. destruct (rejects _); [done|]. simpl.
  apply rtc_once. by constructor.
Qed.

Lemma login_effect sv now req st : rtc effect st (login sv now req st).2.
Proof.
  unfold login, try_catch.
  rewrite M_bind_run. unfold Teacher_findOne, gets.
  destruct (list_find _ _) as [[id x]|] eqn:Hf; [|done].
  destruct (negb _); [done|]. cbv zeta. rewrite M_bind_run.
  apply list_find_Some in Hf as (Hid & _ & _).
  pose proof (Teacher_save_effect (rejects_write sv) id x
                (Teacher.tokens x ++ [generateToken sv now id]) st Hid) as Heff.
  destruct (Teacher_save _ _ _ st) as [[[]|e] st']; done.
Qed.

Lemma logout_effect sv now authorization st :
  rtc effect st (logout (rejects_write sv) (jwt_verify sv) now authorization st).2.
Proof.
  unfold logout. rewrite <- authenticate_for_authenticate.
  auth_cases as [(r & _ & ->)|(id & x & token & _ & _ & Hid & _ & ->)]; [done|].
  cbv zeta. rewrite M_bind_run.
  pose proof (Teacher_save_effect (rejects_write sv) id x
                (filter (λ t, t ≠ token) (Teacher.tokens x)) st Hid) as Heff.
  destruct (Teacher_save _ _ _ st) as [[[]|e] st']; done.
Qed.

Lemma get_subjects_unchanged sv now authorization st :
  (get_subjects sv now authorization st).2 = st.
Proof.
  unfold get_subjects.
  auth_cases as [(r & _ & ->)|(id & x & token & _ & _ & _ & _ & ->)]; done.
Qed.

Lemma post_subjects_effect sv now authorization name st :
  rtc effect st (post_subjects sv now authorization name st).2.
Proof.
  unfold post_subjects.
  auth_cases as [(r & _ & ->)|(id & x & token & _ & _ & _ & _ & ->)]; [done|].
  destruct (falsy name); [done|]. cbv zeta. rewrite M_bind_run. unfold Subject_create.
  destruct (Subject_valid _) eqn:Hv; [|done]. simpl.
  destruct (rejects_subject sv _); [done|]. simpl. apply rtc_once. by constructor.
Qed.

Lemma student_register_effect sv salt req st :
  rtc effect st (student_register sv salt req st).2.
Proof.
  unfold student_register. cbv zeta.
  destruct (falsy _ || falsy _); [done|].
  rewrite M_bind_run. unfold Student_findOne at 1, gets.
  destruct (list_find _ _) as [[i x]|]; [done|].
  rewrite M_bind_run. unfold Student_create.
  destruct (Student_valid _) eqn:Hv; [|done]. simpl.
  rewrite M_bind_run. unfold Student_findOne, gets.
  destruct (list_find _ _) as [[i x]|] eqn:Hdup; [done|].
  destruct (rejects_student sv _); [done|]. simpl.
  apply rtc_once. constructor; [done|].
  apply list_find_None in Hdup. by apply Forall_forall.
Qed.

Lemma student_login_unchanged sv req st : (student_login sv req st).2 = st.
Proof.
  unfold student_login. cbv zeta. rewrite M_bind_run. unfold Student_findOne, gets.
  destruct (list_find _ _) as [[i x]|]; [|done]. by destruct (negb _).
Qed.

Lemma attendance_session_effect sv now authorization t_id t_exp t_created rand subject st :
  rtc effect st
    (attendance_session (rejects_write sv) (jwt_verify sv) now authorization
       t_id t_exp t_created rand subject st).2.
Proof.
  unfold attendance_session. rewrite <- authenticate_for_authenticate.
  auth_cases as [(r & _ & ->)|(id & x & token & _ & _ & _ & _ & ->)]; [done|].
  destruct (falsy subject); [done|]. cbv zeta. rewrite M_bind_run. unfold QrSession_create.
  destruct (QrSession.valid _) eqn:Hv; [|done]. simpl.
  rewrite M_bind_run. unfold QrSession_findOne, gets, QrSession.findOne.
  destruct (list_find _ _) as [[i y]|] eqn:Hdup; [done|].
  destruct (rejects_write sv _); [done|]. simpl.
  apply rtc_once. constructor; [done|].
  apply list_find_None in Hdup. by apply Forall_forall.
Qed.

Lemma attendance_mark_effect rejects now today req st :
  rtc effect st (attendance_mark rejects now today req st).2.
Proof.
  destruct (falsy (mark_regNumber req) || falsy (mark_subject req) || falsy (mark_qrId req))
    eqn:Hmiss.
  { by rewrite mark_missing_data. }
  apply orb_false_elim in Hmiss as [[H1 H2]%orb_false_elim H3].
  unfold falsy in *. apply bool_decide_eq_false in H1, H2, H3.
  rewrite mark_unfold by done.
  destruct (QrSession.findOne _ _) as [[j session]|]; [|done].
  destruct (_ <? now); [done|].
  destruct (Attendance.findOne _ _ _ _) as [[i r]|] eqn:Hf; cbv zeta.
  - destruct (Attendance.status r) eqn:Hst; [done|].
    destruct (negb _); [done|]. destruct (rejects _); [done|]. simpl.
    apply findOne_Some_inv in Hf as [Hi _]. apply rtc_once. by constructor.
  - destruct (Attendance.valid _) eqn:Hv; [|done]. simpl.
    destruct (rejects _); [done|]. simpl.
    apply rtc_once. constructor; [done| |by left]. by apply findOne_None_records.
Qed.

Lemma attendance_decrement_effect rejects today req st :
  rtc effect st (attendance_decrement rejects today req st).2.
Proof.
  rewrite decrement_unfold.
  destruct (Attendance.findOne _ _ _ _) as [[i r]|] eqn:Hf; cbv zeta.
  - by destruct (Attendance.status r).
  - destruct (Attendance.valid _) eqn:Hv; [|done]. simpl.
    destruct (rejects _); [done|]. simpl.
    apply rtc_once. constructor; [done| |by right]. by apply findOne_None_records.
Qed.

Lemma daily_decrement_effect rejects today st :
  rtc effect st (daily_decrement rejects today st).2.
Proof.
  rewrite daily_decrement_unfold. apply for_of_rtc. clear.
  intros p st. rewrite M_bind_run. unfold Attendance_findOne, gets.
  destruct (Attendance.findOne _ _ _ _) as [[i r]|] eqn:Hf; [done|].
  apply Attendance_create_effect; [|by right]. by apply findOne_None_records.
Qed.

Lemma serve_effects sv r st : rtc effect st (serve sv r st).
Proof.
  destruct r; simpl.
  - apply register_effect.
  - apply login_effect.
  - apply logout_effect.
  - by rewrite get_subjects_unchanged.
  - apply post_subjects_effect.
  - apply student_register_effect.
  - by rewrite student_login_unchanged.
  - apply attendance_session_effect.
  - apply attendance_mark_effect.
  - done.
  - apply attendance_decrement_effect.
  - apply daily_decrement_effect.
Qed.

Lemma run_effects sv rs st : rtc effect st (run sv rs st).
Proof.
  revert st. induction rs as [|r rs IH]; intros st; [done|].
  simpl. etrans; [apply serve_effects|apply IH].
Qed.

(** X3: whatever the requests and whatever the libraries and the persistence
    layer answer, the store the requests leave behind is reached from the
    store they found by elementary changes only: a teacher, student or QR
    session created under an unused email, regNumber or qrId, a subject
    created, a teacher's token list replaced, an attendance record created
    under an unused key as present/+1 or absent/-3, or an absent record
    rewritten to present/+1.  Nothing is ever deleted, no email, password,
    student, subject or session is rewritten, and no present record is
    touched. *)
Theorem run_only_elementary_changes sv rs st : rtc effect st (run sv rs st).
Proof. apply run_effects. Qed.

(** ** Invariants of the server *)

Lemma rtc_effect_invariant (I : Store → Prop) st st' :
  (∀ s s', effect s s' → I s → I s') → rtc effect st st' → I st → I st'.
Proof. intros Hstep Hrtc. induction Hrtc; eauto. Qed.

Lemma rtc_effect_relation (R : relation Store) `{!Reflexive R, !Transitive R} st st' :
  (∀ s s', effect s s' → R s s') → rtc effect st st' → R st st'.
Proof. intros Hstep Hrtc. induction Hrtc; [done|]. etrans; eauto. Qed.

Lemma NoDup_snoc_fresh {A B} (f : A → B) (l : list A) (x : A) :
  NoDup (f <$> l) → (∀ y, y ∈ l → f y ≠ f x) → NoDup (f <$> (l ++ [x])).
Proof.
  intros Hnd Hfresh. rewrite fmap_app. apply NoDup_app. split_and!.
  - done.
  - intros b (y & -> & Hy)%list_elem_of_fmap Hin. simpl in Hin.
    apply list_elem_of_singleton in Hin. by eapply Hfresh.
  - simpl. apply NoDup_singleton.
Qed.

Lemma effect_ledger_ok st st' :
  effect st st' → ledger_ok (Attendances st) → ledger_ok (Attendances st').
Proof.
  destruct 1; simpl; intros Hok; try done.
  - by apply ledger_ok_snoc.
  - by eapply ledger_ok_insert.
Qed.

Lemma effect_scores st st' :
  effect st st' → scores_match_status (Attendances st) → scores_match_status (Attendances st').
Proof.
  destruct 1 as [| | | | |st d Hv Hnil Hscore|st i d Hi Hst]; simpl; intros Hok; try done.
  - intros d' [Hin|Hin%list_elem_of_singleton]%elem_of_app; [by apply Hok|by subst].
  - intros d' Hin. apply list_elem_of_lookup in Hin as [j Hj].
    apply list_lookup_insert_Some in Hj as [(-> & <- & _)|(_ & Hj)].
    + by left.
    + apply Hok. by eapply list_elem_of_lookup_2.
Qed.

Lemma effect_documents_valid st st' :
  effect st st' → documents_valid st → documents_valid st'.
Proof.
  unfold documents_valid.
  destruct 1 as [st x Hv _|st id x tokens Hid|st s Hv _|st s Hv|st q Hv _
                 |st d Hv _ _|st i d Hi Hst];
    simpl; intros (Ht & Hs & Hj & Ha & Hq); split_and!; try done.
  - apply Forall_app. split; [done|]. by apply Forall_singleton.
  - apply Forall_insert; [done|].
    pose proof (Forall_lookup_1 _ _ _ _ Ht Hid) as Hx. by destruct x.
  - apply Forall_app. split; [done|]. by apply Forall_singleton.
  - apply Forall_app. split; [done|]. by apply Forall_singleton.
  - apply Forall_app. split; [done|]. by apply Forall_singleton.
  - apply Forall_app. split; [done|]. by apply Forall_singleton.
  - apply Forall_insert; [done|].
    pose proof (Forall_lookup_1 _ _ _ _ Ha Hi) as Hd. by destruct d.
Qed.

Lemma effect_unique_indexes st st' :
  effect st st' → unique_indexes st → unique_indexes st'.
Proof.
  unfold unique_indexes.
  destruct 1 as [st x _ Hfresh|st id x tokens Hid|st s _ Hfresh|st s _|st q _ Hfresh
                 |st d _ _ _|st i d Hi Hst];
    simpl; intros (Ht & Hs & Hq); split_and!; try done.
  - by apply NoDup_snoc_fresh.
  - rewrite list_fmap_insert. simpl.
    rewrite list_insert_id; [done|]. by rewrite list_lookup_fmap, Hid.
  - by apply NoDup_snoc_fresh.
  - by apply NoDup_snoc_fresh.
Qed.

#[local] Instance records_kept_refl : Reflexive records_kept.
Proof. intros st i d Hi. by exists d. Qed.

#[local] Instance records_kept_trans : Transitive records_kept.
Proof.
  intros st1 st2 st3 H12 H23 i d Hi.
  destruct (H12 i d Hi) as (d2 & Hi2 & Hk2 & Hp2).
  destruct (H23 i d2 Hi2) as (d3 & Hi3 & Hk3 & Hp3).
  exists d3. split_and!; [done|congruence|].
  intros Hp. specialize (Hp2 Hp). subst d2. by apply Hp3.
Qed.

Lemma effect_records_kept st st' : effect st st' → records_kept st st'.
Proof.
  destruct 1 as [| | | | |st d' _ _ _|st j d0 Hj Hst]; try (intros i d Hi; by exists d).
  - intros i d Hi. exists d. split_and!; [|done..]. simpl. by apply lookup_app_l_Some.
  - intros i d Hi. simpl. destruct (decide (i = j)) as [->|Hne].
    + eexists. split_and!.
      * apply list_lookup_insert_eq. by eapply lookup_lt_Some.
      * by simplify_eq.
      * intros Hp. simplify_eq. congruence.
    + exists d. by rewrite list_lookup_insert_ne.
Qed.

#[local] Instance teachers_kept_refl : Reflexive teachers_kept.
Proof. intros st id x Hid. by exists x. Qed.

#[local] Instance teachers_kept_trans : Transitive teachers_kept.
Proof.
  intros st1 st2 st3 H12 H23 id x Hid.
  destruct (H12 id x Hid) as (x2 & Hid2 & He2 & Hp2).
  destruct (H23 id x2 Hid2) as (x3 & Hid3 & He3 & Hp3).
  exists x3. split_and!; [done|congruence..].
Qed.

Lemma effect_teachers_kept st st' : effect st st' → teachers_kept st st'.
Proof.
  destruct 1 as [st y _ _|st j y tokens Hj| | | | |]; try (intros id x Hid; by exists x).
  - intros id x Hid. exists x. split_and!; [|done..]. simpl. by apply lookup_app_l_Some.
  - intros id x Hid. simpl. destruct (decide (id = j)) as [->|Hne].
    + eexists. split_and!.
      * apply list_lookup_insert_eq. by eapply lookup_lt_Some.
      * by simplify_eq.
      * by simplify_eq.
    + exists x. by rewrite list_lookup_insert_ne.
Qed.

Lemma effect_append_only st st' :
  effect st st' →
  Students st `prefix_of` Students st' ∧ Subjects st `prefix_of` Subjects st' ∧
  QrSessions st `prefix_of` QrSessions st'.
Proof. destruct 1; simpl; split_and!; try done; by eexists. Qed.

(** X4: however many requests are served, the attendance collection keeps at
    most one record per (regNumber, subject, date). *)
Theorem run_keeps_one_record_per_key sv rs st :
  ledger_ok (Attendances st) → ledger_ok (Attendances (run sv rs st)).
Proof.
  apply (rtc_effect_invariant (λ s, ledger_ok (Attendances s)));
    [apply effect_ledger_ok|apply run_effects].
Qed.

(** X5: however many requests are served, every attendance record scores +1
    when present and -3 when absent. *)
Theorem run_keeps_scores_matching_status sv rs st :
  scores_match_status (Attendances st) → scores_match_status (Attendances (run sv rs st)).
Proof.
  apply (rtc_effect_invariant (λ s, scores_match_status (Attendances s)));
    [apply effect_scores|apply run_effects].
Qed.

(** X6: however many requests are served, every stored document keeps passing
    its schema's validation: no required string is ever empty. *)
Theorem run_keeps_documents_valid sv rs st :
  documents_valid st → documents_valid (run sv rs st).
Proof.
  apply (rtc_effect_invariant documents_valid);
    [apply effect_documents_valid|apply run_effects].
Qed.

(** X7: however many requests are served, teacher emails, student regNumbers
    and qrIds stay pairwise distinct. *)
Theorem run_keeps_unique_indexes sv rs st :
  unique_indexes st → unique_indexes (run sv rs st).
Proof.
  apply (rtc_effect_invariant unique_indexes);
    [apply effect_unique_indexes|apply run_effects].
Qed.

(** X8: an attendance record is never deleted or moved and never changes its
    key, and once present it is never changed at all: whatever requests
    follow, it is still stored at the same position, and a present record
    is stored there unchanged. *)
Theorem run_keeps_records sv rs st i d :
  Attendances st !! i = Some d →
  ∃ d', Attendances (run sv rs st) !! i = Some d' ∧
        Attendance.key d' = Attendance.key d ∧
        (Attendance.status d = present → d' = d).
Proof.
  apply (rtc_effect_relation records_kept);
    [apply effect_records_kept|apply run_effects].
Qed.

(** X9: a teacher is never deleted and no request changes a teacher's email
    or password hash: only the token list of a stored teacher can change. *)
Theorem run_keeps_teachers sv rs st id x :
  Teachers st !! id = Some x →
  ∃ x', Teachers (run sv rs st) !! id = Some x' ∧
        Teacher.email x' = Teacher.email x ∧ Teacher.password x' = Teacher.password x.
Proof.
  apply (rtc_effect_relation teachers_kept);
    [apply effect_teachers_kept|apply run_effects].
Qed.

(** X10: students, subjects and QR sessions are append-only: whatever requests
    are served, the old collection is a prefix of the new one, so no
    student, subject or session is ever deleted or rewritten. *)
Theorem run_appends_only sv rs st :
  Students st `prefix_of` Students (run sv rs st) ∧
  Subjects st `prefix_of` Subjects (run sv rs st) ∧
  QrSessions st `prefix_of` QrSessions (run sv rs st).
Proof.
  pose proof (run_effects sv rs st) as Hrtc.
  induction Hrtc as [|s1 s2 s3 Hstep _ IH]; [done|].
  apply effect_append_only in Hstep as (H1 & H2 & H3).
  destruct IH as (I1 & I2 & I3). split_and!; by etrans.
Qed.

(** ** Teacher accounts *)

Lemma authenticate_for_lookup {R : Type} (reply : Response → R) sv now authorization
    (next : nat → Teacher.t → string → M R) st id teacher token :
  presents authorization token →
  jwt_verify sv now token = Some id →
  Teachers st !! id = Some teacher →
  token ∈ Teacher.tokens teacher →
  authenticate_for reply sv now authorization next st = next id teacher token st.
Proof.
  intros (authHeader & -> & Hf & Hp & Ht) Hv Hid Hin.
  unfold authenticate_for. rewrite Hf, Hp, Ht, Hv. simpl.
  rewrite M_bind_run. unfold gets, Teacher.findById. rewrite Hid.
  by rewrite bool_decide_eq_true_2.
Qed.

Lemma teacher_find_fresh sv email (coll : list Teacher.t) x :
  list_find (λ y, Teacher.email y = toLowerCase sv email) coll = None →
  Teacher.email x = toLowerCase sv email →
  list_find (λ y, Teacher.email y = toLowerCase sv email) (coll ++ [x])
  = Some (length coll, x).
Proof. intros Hnone Hx. by apply list_find_snoc. Qed.

Lemma register_accepted sv now salt req st :
  cred_email req ≠ "" → cred_password req ≠ "" →
  toLowerCase sv (cred_email req) ≠ "" →
  bcrypt_hash sv salt (cred_password req) ≠ "" →
  (∀ y, y ∈ Teachers st → Teacher.email y ≠ toLowerCase sv (cred_email req)) →
  rejects_write sv
    (WTeacher (Teacher.mk (toLowerCase sv (cred_email req))
                 (bcrypt_hash sv salt (cred_password req))
                 [jwt_sign sv now (length (Teachers st))])) = false →
  ∃ st1 token teacher,
    token = jwt_sign sv now (length (Teachers st)) ∧
    teacher = Teacher.mk (toLowerCase sv (cred_email req))
                (bcrypt_hash sv salt (cred_password req)) [token] ∧
    register sv now salt req st = (Ok (TeacherRegistered token (cred_email req)), st1) ∧
    st1 = set_Teachers (λ coll, coll ++ [teacher]) st ∧
    ∀ (R : Type) (reply : Response → R) now' authorization
      (next : nat → Teacher.t → string → M R),
      presents authorization token →
      jwt_verify sv now' token = Some (length (Teachers st)) →
      authenticate_for reply sv now' authorization next st1
      = next (length (Teachers st)) teacher token st1.
Proof.
  intros He Hp Hle Hh Hfresh Hw. eexists _, _, _. split; [done|]. split; [done|].
  assert (list_find (λ y, Teacher.email y = toLowerCase sv (cred_email req)) (Teachers st)
          = None) as Hnone.
  { apply list_find_None, Forall_forall. intros y Hy. by apply Hfresh. }
  split_and!.
  - unfold register, try_catch. rewrite !falsy_false by done. simpl.
    rewrite M_bind_run. unfold Teacher_findOne, gets. rewrite Hnone.
    rewrite !M_bind_run. cbv zeta. unfold Teacher_create, generateToken.
    unfold Teacher.valid. simpl. rewrite !required_true by done. simpl.
    rewrite M_bind_run. unfold gets. rewrite Hnone, Hw. done.
  - done.
  - intros R reply now' authorization next Hpres Hv.
    apply authenticate_for_lookup; try done.
    + simpl. by rewrite lookup_app_r, Nat.sub_diag.
    + simpl. by left.
Qed.

(** X11: a registration with both fields present and an email that, lowercased,
    is not yet stored creates the teacher (lowercased email, password
    hash, the one fresh token) at the end of the collection and answers
    201 with that token; a later request carrying the token, for as long
    as [jwt.verify] accepts it, passes the middleware as the new teacher. *)
Theorem register_creates_account sv now salt req st :
  cred_email req ≠ "" → cred_password req ≠ "" →
  toLowerCase sv (cred_email req) ≠ "" →
  bcrypt_hash sv salt (cred_password req) ≠ "" →
  (∀ y, y ∈ Teachers st → Teacher.email y ≠ toLowerCase sv (cred_email req)) →
  rejects_write sv
    (WTeacher (Teacher.mk (toLowerCase sv (cred_email req))
                 (bcrypt_hash sv salt (cred_password req))
                 [jwt_sign sv now (length (Teachers st))])) = false →
  ∃ st1 token teacher,
    token = jwt_sign sv now (length (Teachers st)) ∧
    teacher = Teacher.mk (toLowerCase sv (cred_email req))
                (bcrypt_hash sv salt (cred_password req)) [token] ∧
    register sv now salt req st = (Ok (TeacherRegistered token (cred_email req)), st1) ∧
    st1 = set_Teachers (λ coll, coll ++ [teacher]) st ∧
    ∀ (R : Type) (reply : Response → R) now' authorization
      (next : nat → Teacher.t → string → M R),
      presents authorization token →
      jwt_verify sv now' token = Some (length (Teachers st)) →
      authenticate_for reply sv now' authorization next st1
      = next (length (Teachers st)) teacher token st1.
Proof. by apply register_accepted. Qed.

(** X12: a registration is refused with 400 and stores nothing when a field is
    missing, and when the email, lowercased, is already stored: emails
    that differ only by case are the same account. *)
Theorem register_refusals sv now salt req st :
  (cred_email req = "" ∨ cred_password req = "" →
    register sv now salt req st = (Ok ProvideEmailAndPassword, st)) ∧
  (cred_email req ≠ "" → cred_password req ≠ "" →
    (∃ y, y ∈ Teachers st ∧ Teacher.email y = toLowerCase sv (cred_email req)) →
    register sv now salt req st = (Ok EmailInUse, st)).
Proof.
  split.
  - intros Hmiss. unfold register, try_catch, falsy.
    destruct Hmiss as [-> | ->]; simpl; [done|]. by rewrite orb_true_r.
  - intros He Hp (y & Hy & Hemail).
    unfold register, try_catch. rewrite !falsy_false by done. simpl.
    rewrite M_bind_run. unfold Teacher_findOne, gets.
    destruct (list_find _ _) as [[i x]|] eqn:Hf; [done|].
    apply list_find_None in Hf. by eapply Forall_forall in Hf.
Qed.

Lemma login_accepted sv now req st id teacher :
  list_find (λ y, Teacher.email y = toLowerCase sv (cred_email req)) (Teachers st)
    = Some (id, teacher) →
  bcrypt_compare sv (cred_password req) (Teacher.password teacher) = true →
  Teacher.valid teacher = true →
  rejects_write sv
    (WTeacher (Teacher.mk (Teacher.email teacher) (Teacher.password teacher)
                 (Teacher.tokens teacher ++ [jwt_sign sv now id]))) = false →
  ∃ st1 teacher1,
    teacher1 = Teacher.mk (Teacher.email teacher) (Teacher.password teacher)
                 (Teacher.tokens teacher ++ [jwt_sign sv now id]) ∧
    login sv now req st = (Ok (LoginSuccessful (jwt_sign sv now id) (cred_email req)), st1) ∧
    st1 = set_Teachers (λ coll, <[id := teacher1]> coll) st ∧
    Teachers st1 !! id = Some teacher1 ∧
    ∀ (R : Type) (reply : Response → R) now' authorization token
      (next : nat → Teacher.t → string → M R),
      presents authorization token →
      jwt_verify sv now' token = Some id →
      token ∈ Teacher.tokens teacher ∨ token = jwt_sign sv now id →
      authenticate_for reply sv now' authorization next st1 = next id teacher1 token st1.
Proof.
  intros Hf Hc Hvalid Hw. eexists _, _. split; [done|].
  pose proof Hf as (Hid & _ & _)%list_find_Some.
  assert ((Teachers (set_Teachers
             (λ coll, <[id := Teacher.mk (Teacher.email teacher) (Teacher.password teacher)
                                 (Teacher.tokens teacher ++ [jwt_sign sv now id])]> coll) st))
            !! id
          = Some (Teacher.mk (Teacher.email teacher) (Teacher.password teacher)
                    (Teacher.tokens teacher ++ [jwt_sign sv now id]))) as Hid1.
  { simpl. apply list_lookup_insert_eq. by eapply lookup_lt_Some. }
  split_and!; try done.
  - unfold login, try_catch. rewrite M_bind_run. unfold Teacher_findOne, gets.
    rewrite Hf, Hc. simpl. rewrite M_bind_run. unfold Teacher_save, generateToken.
    assert (Teacher.valid (Teacher.mk (Teacher.email teacher) (Teacher.password teacher)
                             (Teacher.tokens teacher ++ [jwt_sign sv now id])) = true) as ->
      by done.
    simpl. by rewrite Hw.
  - intros R reply now' authorization token next Hpres Hv Hin.
    apply authenticate_for_lookup; try done. simpl.
    apply elem_of_app. destruct Hin as [?| ->]; [by left|right; by left].
Qed.

(** X13: login with an email that (lowercased) is stored and a password that
    [bcrypt.compare] accepts answers 200 with a fresh token and appends
    that token to the teacher's list: the tokens issued before remain, so
    earlier sessions keep authenticating, and nothing else in the store
    changes. *)
Theorem login_appends_token sv now req st id teacher :
  list_find (λ y, Teacher.email y = toLowerCase sv (cred_email req)) (Teachers st)
    = Some (id, teacher) →
  bcrypt_compare sv (cred_password req) (Teacher.password teacher) = true →
  Teacher.valid teacher = true →
  rejects_write sv
    (WTeacher (Teacher.mk (Teacher.email teacher) (Teacher.password teacher)
                 (Teacher.tokens teacher ++ [jwt_sign sv now id]))) = false →
  ∃ st1 teacher1,
    teacher1 = Teacher.mk (Teacher.email teacher) (Teacher.password teacher)
                 (Teacher.tokens teacher ++ [jwt_sign sv now id]) ∧
    login sv now req st = (Ok (LoginSuccessful (jwt_sign sv now id) (cred_email req)), st1) ∧
    st1 = set_Teachers (λ coll, <[id := teacher1]> coll) st ∧
    Teachers st1 !! id = Some teacher1 ∧
    ∀ (R : Type) (reply : Response → R) now' authorization token
      (next : nat → Teacher.t → string → M R),
      presents authorization token →
      jwt_verify sv now' token = Some id →
      token ∈ Teacher.tokens teacher ∨ token = jwt_sign sv now id →
      authenticate_for reply sv now' authorization next st1 = next id teacher1 token st1.
Proof. by apply login_accepted. Qed.

(** X15: register, then log in with the same email and password: provided
    [bcrypt.compare] accepts a password against its own hash, the login
    succeeds and the teacher then holds exactly the two tokens issued, in
    order of issue. *)
Theorem register_then_login sv now1 now2 salt req st :
  cred_email req ≠ "" → cred_password req ≠ "" →
  toLowerCase sv (cred_email req) ≠ "" →
  bcrypt_hash sv salt (cred_password req) ≠ "" →
  (∀ y, y ∈ Teachers st → Teacher.email y ≠ toLowerCase sv (cred_email req)) →
  bcrypt_compare sv (cred_password req) (bcrypt_hash sv salt (cred_password req)) = true →
  (∀ w, rejects_write sv w = false) →
  ∃ st1 st2 token1 token2,
    register sv now1 salt req st = (Ok (TeacherRegistered token1 (cred_email req)), st1) ∧
    login sv now2 req st1 = (Ok (LoginSuccessful token2 (cred_email req)), st2) ∧
    token1 = jwt_sign sv now1 (length (Teachers st)) ∧
    token2 = jwt_sign sv now2 (length (Teachers st)) ∧
    Teachers st2
    = Teachers st ++ [Teacher.mk (toLowerCase sv (cred_email req))
                        (bcrypt_hash sv salt (cred_password req)) [token1; token2]].
Proof.
  intros He Hp Hle Hh Hfresh Hc Hw.
  destruct (register_accepted sv now1 salt req st)
    as (st1 & token1 & teacher & -> & -> & Hreg & -> & _); try done.
  assert (list_find (λ y, Teacher.email y = toLowerCase sv (cred_email req)) (Teachers st)
          = None) as Hnone.
  { apply list_find_None, Forall_forall. intros y Hy. by apply Hfresh. }
  destruct (login_accepted sv now2 req
              (set_Teachers
                 (λ coll, coll ++ [Teacher.mk (toLowerCase sv (cred_email req))
                                     (bcrypt_hash sv salt (cred_password req))
                                     [jwt_sign sv now1 (length (Teachers st))]]) st)
              (length (Teachers st))
              (Teacher.mk (toLowerCase sv (cred_email req))
                 (bcrypt_hash sv salt (cred_password req))
                 [jwt_sign sv now1 (length (Teachers st))]))
    as (st2 & teacher2 & -> & Hlogin & -> & _ & _); try done.
  { simpl. by apply (teacher_find_fresh sv). }
  { unfold Teacher.valid. simpl. by rewrite !required_true. }
  eexists _, _, _, _. split_and!; try done. simpl.
  rewrite insert_app_r_alt, Nat.sub_diag by done. done.
Qed.

(** X16: log in, then log out with the token just issued: the teacher's list
    is the list from before the login without every copy of that token.
    When the token is new to the list, the whole store is back to what it
    was before the login; when a token with the same text was already
    there (two logins signing the same payload), the logout removes that
    older copy too. *)
Theorem login_then_logout sv now1 now2 req authorization st id teacher :
  list_find (λ y, Teacher.email y = toLowerCase sv (cred_email req)) (Teachers st)
    = Some (id, teacher) →
  bcrypt_compare sv (cred_password req) (Teacher.password teacher) = true →
  Teacher.valid teacher = true →
  (∀ w, rejects_write sv w = false) →
  presents authorization (jwt_sign sv now1 id) →
  jwt_verify sv now2 (jwt_sign sv now1 id) = Some id →
  ∃ st1 st2,
    login sv now1 req st
      = (Ok (LoginSuccessful (jwt_sign sv now1 id) (cred_email req)), st1) ∧
    logout (rejects_write sv) (jwt_verify sv) now2 authorization st1
      = (Ok LogoutSuccessful, st2) ∧
    Teachers st2 !! id
      = Some (Teacher.mk (Teacher.email teacher) (Teacher.password teacher)
                (filter (λ t, t ≠ jwt_sign sv now1 id) (Teacher.tokens teacher))) ∧
    (jwt_sign sv now1 id ∉ Teacher.tokens teacher → st2 = st).
Proof.
  intros Hf Hc Hvalid Hw Hpres Hv.
  destruct (login_accepted sv now1 req st id teacher)
    as (st1 & teacher1 & -> & Hlogin & -> & Hid1 & _); try done.
  pose proof Hf as (Hid & _ & _)%list_find_Some.
  set (token := jwt_sign sv now1 id) in *.
  set (teacher1 := Teacher.mk (Teacher.email teacher) (Teacher.password teacher)
                     (Teacher.tokens teacher ++ [token])) in *.
  set (st1 := set_Teachers (λ coll, <[id := teacher1]> coll) st) in *.
  assert (filter (λ t, t ≠ token) (Teacher.tokens teacher1)
          = filter (λ t, t ≠ token) (Teacher.tokens teacher)) as Hfilter.
  { simpl. rewrite filter_app, filter_cons_False, app_nil_r; [done|]. by intros []. }
  assert (logout (rejects_write sv) (jwt_verify sv) now2 authorization st1
          = (Ok LogoutSuccessful,
             set_Teachers
               (λ coll, <[id := Teacher.mk (Teacher.email teacher) (Teacher.password teacher)
                                   (filter (λ t, t ≠ token) (Teacher.tokens teacher))]> coll)
               st1)) as Hlogout.
  { unfold logout. rewrite (authenticate_lookup _ _ _ _ _ _ _ _ Hpres Hv Hid1).
    rewrite bool_decide_eq_true_2 by (simpl; apply elem_of_app; right; by left).
    cbv zeta. rewrite Hfilter. rewrite M_bind_run. unfold Teacher_save.
    assert (Teacher.valid (Teacher.mk (Teacher.email teacher1) (Teacher.password teacher1)
                             (filter (λ t, t ≠ token) (Teacher.tokens teacher))) = true) as ->
      by done.
    simpl. by rewrite Hw. }
  eexists _, _. split_and!; try done.
  - simpl. rewrite list_insert_insert_eq. apply list_lookup_insert_eq.
    by eapply lookup_lt_Some.
  - intros Hnew. unfold set_Teachers, st1. simpl.
    rewrite list_insert_insert_eq.
    assert (filter (λ t, t ≠ token) (Teacher.tokens teacher) = Teacher.tokens teacher) as ->.
    { clear -Hnew. induction (Teacher.tokens teacher) as [|t ts IH]; [done|].
      rewrite filter_cons_True by (intros ->; apply Hnew; by left).
      f_equal. apply IH. intros Hin. apply Hnew. by right. }
    rewrite list_insert_id by (by destruct teacher). by destruct st.
Qed.

(** ** Student accounts *)

(** X17: register a student under an unused regNumber, then log in with the
    same regNumber and password: the student is appended with the
    password hash, the login succeeds (provided [bcrypt.compare] accepts
    the password against its hash) without changing the store or issuing
    any token, and a second registration of the regNumber is refused and
    stores nothing. *)
Theorem student_register_then_login sv salt salt' req password' st :
  stu_regNumber req ≠ "" → stu_password req ≠ "" → password' ≠ "" →
  bcrypt_hash sv salt (stu_password req) ≠ "" →
  (∀ y, y ∈ Students st → Student.regNumber y ≠ stu_regNumber req) →
  rejects_student sv (Student.mk (stu_regNumber req) (bcrypt_hash sv salt (stu_password req)))
    = false →
  bcrypt_compare sv (stu_password req) (bcrypt_hash sv salt (stu_password req)) = true →
  ∃ st1,
    student_register sv salt req st = (Ok StudentRegistered, st1) ∧
    st1 = set_Students
            (λ coll, coll ++ [Student.mk (stu_regNumber req)
                                (bcrypt_hash sv salt (stu_password req))]) st ∧
    student_login sv req st1 = (Ok (StudentLoggedIn (stu_regNumber req)), st1) ∧
    student_register sv salt' (mkStudentBody (stu_regNumber req) password') st1
    = (Ok StudentExists, st1).
Proof.
  intros Hr Hp Hp' Hh Hfresh Hw Hc. eexists. 
  assert (list_find (λ y, Student.regNumber y = stu_regNumber req) (Students st) = None)
    as Hnone.
  { apply list_find_None, Forall_forall. intros y Hy. by apply Hfresh. }
  set (student := Student.mk (stu_regNumber req) (bcrypt_hash sv salt (stu_password req))).
  assert (list_find (λ y, Student.regNumber y = stu_regNumber req) (Students st ++ [student])
          = Some (length (Students st), student)) as Hfound by (by apply list_find_snoc).
  split_and!.
  - unfold student_register. cbv zeta. rewrite !falsy_false by done. simpl.
    rewrite M_bind_run. unfold Student_findOne at 1, gets. rewrite Hnone.
    rewrite M_bind_run. unfold Student_create, Student_valid. simpl.
    rewrite !required_true by done. simpl.
    rewrite M_bind_run. unfold Student_findOne, gets. simpl. rewrite Hnone, Hw. done.
  - done.
  - unfold student_login. cbv zeta. rewrite M_bind_run. unfold Student_findOne, gets.
    simpl. fold student. rewrite Hfound. simpl. by rewrite Hc.
  - unfold student_register. cbv zeta. simpl. rewrite !falsy_false by done. simpl.
    rewrite M_bind_run. unfold Student_findOne, gets. simpl. fold student.
    by rewrite Hfound.
Qed.

(** ** Subjects *)

(** X18: an authenticated teacher who posts a subject with a name gets it
    appended under their own email; their next listing is their previous
    listing followed by the new subject, and the listing of every other
    email is what it was.  No check is made that the name is new. *)
Theorem post_then_get_subjects sv now now' authorization authorization' name st
    id teacher token token' :
  presents authorization token → jwt_verify sv now token = Some id →
  presents authorization' token' → jwt_verify sv now' token' = Some id →
  Teachers st !! id = Some teacher →
  token ∈ Teacher.tokens teacher → token' ∈ Teacher.tokens teacher →
  name ≠ "" → Teacher.email teacher ≠ "" →
  rejects_subject sv (Subject.mk name (Teacher.email teacher)) = false →
  ∃ st1,
    post_subjects sv now authorization name st
      = (Ok (SubjectAdded (Subject.mk name (Teacher.email teacher))), st1) ∧
    Subjects st1 = Subjects st ++ [Subject.mk name (Teacher.email teacher)] ∧
    get_subjects sv now' authorization' st1
      = (Ok (SubjectsReply
               (filter (λ s, Subject.teacherEmail s = Teacher.email teacher) (Subjects st)
                ++ [Subject.mk name (Teacher.email teacher)])), st1) ∧
    ∀ other, other ≠ Teacher.email teacher →
      filter (λ s, Subject.teacherEmail s = other) (Subjects st1)
      = filter (λ s, Subject.teacherEmail s = other) (Subjects st).
Proof.
  intros Hp Hv Hp' Hv' Hid Hin Hin' Hname Hemail Hw.
  exists (set_Subjects (λ coll, coll ++ [Subject.mk name (Teacher.email teacher)]) st).
  split_and!.
  - unfold post_subjects. rewrite (authenticate_for_lookup _ _ _ _ _ _ id teacher token)
      by done.
    rewrite falsy_false by done. cbv zeta. rewrite M_bind_run.
    unfold Subject_create, Subject_valid. simpl. rewrite !required_true by done. simpl.
    by rewrite Hw.
  - done.
  - unfold get_subjects. rewrite (authenticate_for_lookup _ _ _ _ _ _ id teacher token')
      by done.
    rewrite M_bind_run. unfold Subject_find, gets. simpl.
    by rewrite filter_app, filter_cons_True.
  - intros other Hne. simpl. rewrite filter_app, filter_cons_False, app_nil_r; [done|].
    simpl. congruence.
Qed.

(** ** From a QR session to a mark *)

Lemma append_nonempty (s1 s2 : string) : s1 ≠ "" → s1 +:+ s2 ≠ "".
Proof. by destruct s1. Qed.

(** X19: an authenticated teacher who opens a session for a subject, with a
    generated qrId no stored session has yet, gets a session that expires
    five minutes (300000 ms) after the clock reading taken for it.  Marks
    presenting the returned qrId pass the QR step at every instant up to
    and including that expiry, and are refused as expired afterwards. *)
Theorem session_then_mark sv now authorization t_id t_exp t_created rand subject st
    id teacher token :
  presents authorization token → jwt_verify sv now token = Some id →
  Teachers st !! id = Some teacher → token ∈ Teacher.tokens teacher →
  subject ≠ "" →
  (∀ q, q ∈ QrSessions st →
    QrSession.qrId q ≠ subject +:+ "-" +:+ pretty t_id +:+ "-" +:+ rand) →
  (∀ w, rejects_write sv w = false) →
  ∃ st1 qrId,
    qrId = subject +:+ "-" +:+ pretty t_id +:+ "-" +:+ rand ∧
    attendance_session (rejects_write sv) (jwt_verify sv) now authorization
      t_id t_exp t_created rand subject st
      = (Ok (SessionCreated qrId (t_exp + 300000)), st1) ∧
    QrSessions st1
      = QrSessions st ++ [QrSession.mk subject qrId t_created (t_exp + 300000)] ∧
    ∀ now' today regNumber subject',
      regNumber ≠ "" → subject' ≠ "" →
      (now' ≤ t_exp + 300000 →
        qr_accepted
          (attendance_mark (rejects_write sv) now' today
             (mkMarkBody regNumber subject' qrId) st1).1) ∧
      (now' > t_exp + 300000 →
        attendance_mark (rejects_write sv) now' today (mkMarkBody regNumber subject' qrId) st1
        = (Ok ExpiredQr, st1)).
Proof.
  intros Hp Hv Hid Hin Hsubj Hfresh Hw.
  set (qrId := subject +:+ "-" +:+ pretty t_id +:+ "-" +:+ rand) in *.
  set (q := QrSession.mk subject qrId t_created (t_exp + 300000)).
  assert (qrId ≠ "") as Hqr by (by apply append_nonempty).
  assert (QrSession.findOne qrId (QrSessions st) = None) as Hnone.
  { apply list_find_None, Forall_forall. intros y Hy. by apply Hfresh. }
  assert (QrSession.findOne qrId (QrSessions st ++ [q]) = Some (length (QrSessions st), q))
    as Hfound by (by apply list_find_snoc).
  exists (set_QrSessions (λ coll, coll ++ [q]) st), qrId. split_and!; try done.
  - unfold attendance_session.
    rewrite (authenticate_lookup _ _ _ _ _ _ _ _ Hp Hv Hid).
    rewrite bool_decide_eq_true_2 by done.
    rewrite falsy_false by done. cbv zeta. rewrite M_bind_run.
    unfold QrSession_create, QrSession.valid. simpl.
    fold qrId. rewrite !required_true by done. simpl.
    rewrite M_bind_run. unfold QrSession_findOne, gets. rewrite Hnone, Hw. done.
  - intros now' today regNumber subject' Hr Hs. split.
    + intros Hle. eapply (qr_accepted_after_expiry_test _ _ _ _ _ _ q); try done.
    + intros Hgt. rewrite mark_unfold by done. simpl. rewrite Hfound. simpl.
      destruct (Z.ltb_spec (t_exp + 300000) now'); [done|lia].
Qed.

(** ** More on the daily cron *)

Lemma sweep_noop today ps coll :
  (∀ p, p ∈ ps →
    records_for (Student.regNumber p.1, Subject.name p.2, today) coll ≠ []) →
  foldl (sweep_step today) coll ps = coll.
Proof.
  induction ps as [|p ps IH]; intros Hall; [done|]. simpl.
  assert (sweep_step today coll p = coll) as ->.
  { unfold sweep_step. destruct (Attendance.findOne _ _ _ _) eqn:Hf; [done|].
    apply findOne_None_records in Hf. destruct (Hall p); [by left|done]. }
  apply IH. intros q Hq. apply Hall. by right.
Qed.

(** X20: running the cron a second time on the same day changes nothing: with
    every write accepted, the store after the first run is a fixed point
    of the sweep. *)
Theorem daily_decrement_twice rejects today st :
  today ≠ "" →
  (∀ student, student ∈ Students st → Student.regNumber student ≠ "") →
  (∀ subj, subj ∈ Subjects st → Subject.name subj ≠ "") →
  (∀ w, rejects w = false) →
  ∃ st1,
    daily_decrement rejects today st = (Ok tt, st1) ∧
    daily_decrement rejects today st1 = (Ok tt, st1).
Proof.
  intros Ht Hstu Hsub Hw.
  assert (∀ st0, Students st0 = Students st → Subjects st0 = Subjects st →
            daily_decrement rejects today st0
            = (Ok tt, set_Attendances
                        (λ coll, foldl (sweep_step today) coll (sweep_pairs st0)) st0))
    as Hrun.
  { intros st0 Hs Hj. rewrite daily_decrement_unfold. apply sweep_loop_accepted; [done|].
    intros [student subj] [? ?]%elem_of_sweep_pairs. simpl. rewrite Hs, Hj in *.
    split_and!; auto. }
  eexists. split; [by apply Hrun|].
  rewrite Hrun by done. f_equal.
  assert (sweep_pairs (set_Attendances
            (λ coll, foldl (sweep_step today) coll (sweep_pairs st)) st) = sweep_pairs st)
    as -> by done.
  unfold set_Attendances. simpl. f_equal.
  apply sweep_noop. intros p Hp.
  destruct (decide (records_for (Student.regNumber p.1, Subject.name p.2, today)
                      (Attendances st) = [])) as [Hnil|Hne].
  - by rewrite (sweep_fills today _ _ p Hp Hnil).
  - by rewrite sweep_keeps.
Qed.

(** X21: whatever writes the persistence layer rejects, and wherever the run
    ends, the cron touches nothing but the attendance collection, leaves
    every record it found in place, and adds only absent/-3 records dated
    today for a known student and a known subject whose key had no record
    before the run. *)
Theorem daily_decrement_only_adds_absences rejects today st :
  ∃ added,
    (daily_decrement rejects today st).2
      = set_Attendances (λ coll, coll ++ added) st ∧
    Forall (λ d,
      records_for (Attendance.key d) (Attendances st) = [] ∧
      ∃ student subj, student ∈ Students st ∧ subj ∈ Subjects st ∧
        d = Attendance.mk (Student.regNumber student) (Subject.name subj) today absent (-3))
      added.
Proof.
  rewrite daily_decrement_unfold.
  assert (∀ ps st0 added0,
    (∀ p, p ∈ ps → p ∈ sweep_pairs st) →
    st0 = set_Attendances (λ coll, coll ++ added0) st →
    Forall (λ d,
      records_for (Attendance.key d) (Attendances st) = [] ∧
      ∃ student subj, student ∈ Students st ∧ subj ∈ Subjects st ∧
        d = Attendance.mk (Student.regNumber student) (Subject.name subj) today absent (-3))
      added0 →
    ∃ added,
      (for_of ps
         (λ p,
           record ← Attendance_findOne (Student.regNumber p.1) (Subject.name p.2) today;
           match record with
           | None =>
             Attendance_create rejects
               (Attendance.mk (Student.regNumber p.1) (Subject.name p.2) today absent (-3))
           | Some _ => mret tt
           end) st0).2
        = set_Attendances (λ coll, coll ++ added) st ∧
      Forall (λ d,
        records_for (Attendance.key d) (Attendances st) = [] ∧
        ∃ student subj, student ∈ Students st ∧ subj ∈ Subjects st ∧
          d = Attendance.mk (Student.regNumber student) (Subject.name subj) today absent (-3))
        added) as Hloop.
  { induction ps as [|p ps IH]; intros st0 added0 Hps -> Hadded0.
    - by exists added0.
    - simpl. rewrite !M_bind_run. unfold Attendance_findOne, gets. simpl.
      destruct (Attendance.findOne _ _ _ _) as [[i r]|] eqn:Hf.
      + apply (IH _ added0); [intros; apply Hps; by right | done | done].
      + unfold Attendance_create.
        destruct (negb _); [by exists added0|].
        destruct (rejects _); [by exists added0|]. simpl.
        apply (IH _ (added0 ++ [Attendance.mk (Student.regNumber p.1) (Subject.name p.2)
                                  today absent (-3)])).
        * intros; apply Hps; by right.
        * unfold set_Attendances. simpl. by rewrite app_assoc.
        * apply Forall_app. split; [done|]. apply Forall_singleton.
          apply findOne_None_records in Hf. unfold records_for in *.
          rewrite filter_app in Hf. apply app_eq_nil in Hf as [Hf _]. split; [done|].
          destruct p as [student subj].
          assert ((student, subj) ∈ sweep_pairs st) as [? ?]%elem_of_sweep_pairs
            by (apply Hps; by left).
          by exists student, subj. }
  apply (Hloop _ _ []); [done| |done].
  unfold set_Attendances. destruct st. simpl. by rewrite app_nil_r.
Qed.

(** ** More on POST /attendance/mark *)

(** X22: the mark route always sends a response (its body is inside
    [try]/[catch]), changes nothing but the attendance collection, and
    changes that only when it answers with a record: every other answer,
    Server error included, leaves the store exactly as it was. *)
Theorem mark_always_answers rejects now today req st :
  ∃ response,
    (attendance_mark rejects now today req st).1 = Ok response ∧
    (∃ coll, (attendance_mark rejects now today req st).2 = set_Attendances (λ _, coll) st) ∧
    ((∀ record, response ≠ Marked record) →
      (attendance_mark rejects now today req st).2 = st).
Proof.
  assert (st = set_Attendances (λ _, Attendances st) st) as Hsame by (by destruct st).
  destruct (falsy (mark_regNumber req) || falsy (mark_subject req) || falsy (mark_qrId req))
    eqn:Hmiss.
  { rewrite mark_missing_data by done. eexists. split_and!; [done|by eexists|done]. }
  apply orb_false_elim in Hmiss as [[H1 H2]%orb_false_elim H3].
  unfold falsy in *. apply bool_decide_eq_false in H1, H2, H3.
  rewrite mark_unfold by done.
  destruct (QrSession.findOne _ _) as [[j session]|];
    [|eexists; split_and!; [done|by eexists|done]].
  destruct (_ <? now); [eexists; split_and!; [done|by eexists|done]|].
  destruct (Attendance.findOne _ _ _ _) as [[i r]|] eqn:Hf; cbv zeta.
  - destruct (Attendance.status r); [eexists; split_and!; [done|by eexists|done]|].
    destruct (negb _); [eexists; split_and!; [done|by eexists|done]|].
    destruct (rejects _); [eexists; split_and!; [done|by eexists|done]|].
    eexists. split_and!; [done|by eexists|]. intros Hno. by edestruct Hno.
  - destruct (negb _); [eexists; split_and!; [done|by eexists|done]|].
    destruct (rejects _); [eexists; split_and!; [done|by eexists|done]|].
    eexists. split_and!; [done|by eexists|]. intros Hno. by edestruct Hno.
Qed.

(** X23: unlike the mark route, the decrement route does not test its body: on
    a store whose records are valid, a request with an empty regNumber or
    subject reaches [Attendance.create], which rejects it; nothing is
    stored and, the route having no [catch], the handler ends in that
    rejection without sending a response of its own. *)
Theorem decrement_empty_field_rejected rejects today req st :
  Forall (λ d, Attendance.valid d = true) (Attendances st) →
  dec_regNumber req = "" ∨ dec_subject req = "" →
  attendance_decrement rejects today req st = (Throw ValidationError, st).
Proof.
  intros Hvalid Hempty. rewrite decrement_unfold.
  destruct (Attendance.findOne _ _ _ _) as [[i r]|] eqn:Hf.
  - exfalso. apply findOne_Some_inv in Hf as [Hi Hk].
    pose proof (Forall_lookup_1 _ _ _ _ Hvalid Hi) as Hv.
    unfold Attendance.valid, Attendance.key in *. injection Hk as Hr Hs _.
    destruct Hempty as [He|He].
    + rewrite Hr, He in Hv. done.
    + rewrite Hs, He in Hv. simpl in Hv. by rewrite andb_false_r in Hv.
  - cbv zeta. unfold Attendance.valid, absent_record. simpl.
    destruct Hempty as [-> | ->]; simpl; [done|]. by rewrite andb_false_r.
Qed.

(** ** History after a mark *)

Lemma find_insert_other reg coll i d d' :
  coll !! i = Some d →
  Attendance.regNumber d ≠ reg → Attendance.regNumber d' ≠ reg →
  Attendance.find reg (<[i := d']> coll) = Attendance.find reg coll.
Proof.
  intros Hi Hd Hd'. unfold Attendance.find.
  rewrite (filter_at _ _ _ _ Hi), (filter_insert_at _ _ _ _ d' Hi).
  by rewrite !(filter_cons_False _ _ []).
Qed.

(** ** The Authorization header *)

Lemma split_no_separator (sep : ascii) (s : string) :
  (∀ c, c ∈ String.list_ascii_of_string s → c ≠ sep) → split sep s = [s].
Proof.
  induction s as [|c s IH]; intros Hno; [done|]. simpl.
  destruct (decide (c = sep)) as [->|_].
  - destruct (Hno sep); [by left|done].
  - rewrite IH; [done|]. intros c' Hc'. apply Hno. by right.
Qed.

(** X2: the middleware reads the token as the text between the first and the
    second space of the header: a header made of [Bearer], one space and a
    token without spaces presents exactly that token, and whatever follows
    a further space is ignored. *)
Theorem bearer_header_presents (token rest : string) :
  (∀ c, c ∈ String.list_ascii_of_string token → c ≠ " "%char) →
  presents (Some ("Bearer " +:+ token)) token ∧
  presents (Some ("Bearer " +:+ token +:+ " " +:+ rest)) token.
Proof.
  intros Hno. split.
  - eexists. split_and!; [done|by apply falsy_false|by destruct token|].
    simpl. by rewrite split_no_separator.
  - eexists. split_and!; [done|by apply falsy_false|by destruct token|]. simpl.
    assert (∀ t, (∀ c, c ∈ String.list_ascii_of_string t → c ≠ " "%char) →
              ∃ ws, split " " (t +:+ String " " rest) = t :: ws) as Hsplit.
    { clear. induction t as [|c t IH]; intros Hno; simpl.
      - by eexists.
      - destruct (decide (c = " "%char)) as [->|_].
        + destruct (Hno " "%char); [by left|done].
        + destruct IH as [ws ->]; [|by eexists].
          intros c' Hc'. apply Hno. by right. }
    change (split " " (token +:+ String " " rest) !! 0%nat = Some token).
    destruct (Hsplit token Hno) as [ws ->]. done.
Qed.

(** ** The further theorems at work on the demo school *)

Lemma run_keeps_one_record_per_key_witness :
  ledger_ok (Attendances (run demo_services demo_day demo_school)).
Proof.
  apply (run_keeps_one_record_per_key demo_services demo_day demo_school).
  intros k. simpl. lia.
Defined.

Lemma run_keeps_scores_matching_status_witness :
  scores_match_status (Attendances (run demo_services demo_day demo_school)).
Proof.
  apply (run_keeps_scores_matching_status demo_services demo_day demo_school).
  intros d Hd. by apply elem_of_nil in Hd.
Defined.

Lemma run_keeps_documents_valid_witness :
  documents_valid (run demo_services demo_day demo_school).
Proof.
  apply (run_keeps_documents_valid demo_services demo_day demo_school).
  repeat split; repeat constructor.
Defined.

Lemma run_keeps_unique_indexes_witness :
  unique_indexes (run demo_services demo_day demo_school).
Proof.
  apply (run_keeps_unique_indexes demo_services demo_day demo_school).
  repeat split; simpl; repeat constructor; by intros ?%elem_of_nil.
Defined.

Lemma run_keeps_records_witness :
  ∃ d', Attendances (run demo_services demo_day demo_marked) !! 0%nat = Some d' ∧
        Attendance.key d' = ("21CS01", "Math", "2024-01-01") ∧
        (present = present → d' = marked_record "21CS01" "Math" "2024-01-01").
Proof.
  apply (run_keeps_records demo_services demo_day demo_marked 0%nat
           (marked_record "21CS01" "Math" "2024-01-01")).
  reflexivity.
Defined.

Lemma run_keeps_teachers_witness :
  ∃ x', Teachers (run demo_services demo_day demo_school) !! 0%nat = Some x' ∧
        Teacher.email x' = "t@x" ∧ Teacher.password x' = "s$secret".
Proof.
  apply (run_keeps_teachers demo_services demo_day demo_school 0%nat
           (Teacher.mk "t@x" "s$secret" ["tok1"])).
  reflexivity.
Defined.

Lemma register_creates_account_witness :
  ∃ st1,
    register demo_services 10 "s" (mkCredentialsBody "New@X" "pw") demo_school
    = (Ok (TeacherRegistered "tok10" "New@X"), st1) ∧
    Teachers st1 = Teachers demo_school ++ [Teacher.mk "new@x" "s$pw" ["tok10"]].
Proof.
  destruct (register_creates_account demo_services 10 "s" (mkCredentialsBody "New@X" "pw")
              demo_school) as (st1 & token & teacher & -> & -> & Hreg & -> & _);
    try discriminate; try reflexivity.
  - intros y Hy. apply list_elem_of_singleton in Hy as ->. discriminate.
  - exists (set_Teachers (λ coll, coll ++ [Teacher.mk "new@x" "s$pw" ["tok10"]]) demo_school).
    split; [exact Hreg|reflexivity].
Defined.

Lemma login_appends_token_witness :
  ∃ st1,
    login demo_services 20 (mkCredentialsBody "T@x" "secret") demo_school
    = (Ok (LoginSuccessful "tok20" "T@x"), st1) ∧
    Teachers st1 !! 0%nat = Some (Teacher.mk "t@x" "s$secret" ["tok1"; "tok20"]).
Proof.
  destruct (login_appends_token demo_services 20 (mkCredentialsBody "T@x" "secret")
              demo_school 0%nat (Teacher.mk "t@x" "s$secret" ["tok1"]))
    as (st1 & teacher1 & -> & Hlogin & -> & Hid & _); try reflexivity.
  eexists. split; [exact Hlogin|exact Hid].
Defined.

Lemma register_then_login_witness :
  ∃ st1 st2,
    register demo_services 10 "s" (mkCredentialsBody "New@X" "pw") demo_school
      = (Ok (TeacherRegistered "tok10" "New@X"), st1) ∧
    login demo_services 20 (mkCredentialsBody "New@X" "pw") st1
      = (Ok (LoginSuccessful "tok20" "New@X"), st2) ∧
    Teachers st2
    = Teachers demo_school ++ [Teacher.mk "new@x" "s$pw" ["tok10"; "tok20"]].
Proof.
  destruct (register_then_login demo_services 10 20 "s" (mkCredentialsBody "New@X" "pw")
              demo_school) as (st1 & st2 & token1 & token2 & Hreg & Hlogin & -> & -> & Hts);
    try discriminate; try reflexivity.
  - intros y Hy. apply list_elem_of_singleton in Hy as ->. discriminate.
  - exists st1, st2. split_and!; [exact Hreg|exact Hlogin|exact Hts].
Defined.

Lemma login_then_logout_witness :
  ∃ st1 st2,
    login demo_services 20 (mkCredentialsBody "t@x" "secret") demo_school
      = (Ok (LoginSuccessful "tok20" "t@x"), st1) ∧
    logout no_faults demo_verify 30 (Some "Bearer tok20") st1 = (Ok LogoutSuccessful, st2) ∧
    st2 = demo_school.
Proof.
  destruct (login_then_logout demo_services 20 30 (mkCredentialsBody "t@x" "secret")
              (Some "Bearer tok20") demo_school 0%nat (Teacher.mk "t@x" "s$secret" ["tok1"]))
    as (st1 & st2 & Hlogin & Hlogout & _ & Hback); try reflexivity.
  - exists "Bearer tok20". repeat split; reflexivity.
  - exists st1, st2. split_and!; [exact Hlogin|exact Hlogout|].
    apply Hback. simpl. intros Hin. apply list_elem_of_singleton in Hin. discriminate.
Defined.

Lemma student_register_then_login_witness :
  ∃ st1,
    student_register demo_services "s" (mkStudentBody "21CS02" "pw2") demo_school
      = (Ok StudentRegistered, st1) ∧
    student_login demo_services (mkStudentBody "21CS02" "pw2") st1
      = (Ok (StudentLoggedIn "21CS02"), st1) ∧
    student_register demo_services "z" (mkStudentBody "21CS02" "other") st1
      = (Ok StudentExists, st1).
Proof.
  destruct (student_register_then_login demo_services "s" "z" (mkStudentBody "21CS02" "pw2")
              "other" demo_school) as (st1 & Hreg & _ & Hlogin & Hagain);
    try discriminate; try reflexivity.
  - intros y Hy. apply list_elem_of_singleton in Hy as ->. discriminate.
  - exists st1. split_and!; [exact Hreg|exact Hlogin|exact Hagain].
Defined.

Lemma post_then_get_subjects_witness :
  ∃ st1,
    post_subjects demo_services 25 (Some "Bearer tok1") "Physics" demo_school
      = (Ok (SubjectAdded (Subject.mk "Physics" "t@x")), st1) ∧
    get_subjects demo_services 26 (Some "Bearer tok1") st1
      = (Ok (SubjectsReply [Subject.mk "Math" "t@x"; Subject.mk "Physics" "t@x"]), st1).
Proof.
  destruct (post_then_get_subjects demo_services 25 26 (Some "Bearer tok1")
              (Some "Bearer tok1") "Physics" demo_school 0%nat
              (Teacher.mk "t@x" "s$secret" ["tok1"]) "tok1" "tok1")
    as (st1 & Hpost & _ & Hget & _); try discriminate; try reflexivity.
  - exists "Bearer tok1". repeat split; reflexivity.
  - exists "Bearer tok1". repeat split; reflexivity.
  - by left.
  - by left.
  - exists st1. split; [exact Hpost|exact Hget].
Defined.

Lemma session_then_mark_witness :
  ∃ st1,
    attendance_session no_faults demo_verify 30 (Some "Bearer tok1") 31 32 33 "k3j9x0" "Math"
      demo_school
      = (Ok (SessionCreated "Math-31-k3j9x0" 300032), st1) ∧
    qr_accepted
      (attendance_mark no_faults 300032 "2024-01-01"
         (mkMarkBody "21CS01" "Math" "Math-31-k3j9x0") st1).1 ∧
    attendance_mark no_faults 300033 "2024-01-01"
      (mkMarkBody "21CS01" "Math" "Math-31-k3j9x0") st1
    = (Ok ExpiredQr, st1).
Proof.
  destruct (session_then_mark demo_services 30 (Some "Bearer tok1") 31 32 33 "k3j9x0" "Math"
              demo_school 0%nat (Teacher.mk "t@x" "s$secret" ["tok1"]) "tok1")
    as (st1 & qrId & -> & Hsession & _ & Hmark); try discriminate; try reflexivity.
  - exists "Bearer tok1". repeat split; reflexivity.
  - by left.
  - intros q Hq. by apply elem_of_nil in Hq.
  - exists st1. split_and!.
    + exact Hsession.
    + apply (Hmark 300032 "2024-01-01" "21CS01" "Math"); [discriminate..|].
      vm_compute. discriminate.
    + apply (Hmark 300033 "2024-01-01" "21CS01" "Math"); [discriminate..|].
      vm_compute. reflexivity.
Defined.

Lemma daily_decrement_twice_witness :
  ∃ st1,
    daily_decrement no_faults "2024-01-01" demo_marked = (Ok tt, st1) ∧
    daily_decrement no_faults "2024-01-01" st1 = (Ok tt, st1).
Proof.
  apply (daily_decrement_twice no_faults "2024-01-01" demo_marked).
  - discriminate.
  - apply Forall_forall. repeat constructor; discriminate.
  - apply Forall_forall. repeat constructor; discriminate.
  - reflexivity.
Defined.

Lemma decrement_empty_field_rejected_witness :
  attendance_decrement no_faults "2024-01-01" (mkDecrementBody "" "Math") demo_marked
  = (Throw ValidationError, demo_marked).
Proof.
  apply (decrement_empty_field_rejected no_faults "2024-01-01" (mkDecrementBody "" "Math")
           demo_marked).
  - repeat constructor.
  - left. reflexivity.
Defined.

Lemma bearer_header_presents_witness :
  presents (Some "Bearer tok1") "tok1" ∧ presents (Some "Bearer tok1 and more") "tok1".
Proof.
  apply (bearer_header_presents "tok1" "and more").
  intros c Hc. simpl in Hc.
  repeat (apply elem_of_cons in Hc as [-> | Hc]; [discriminate|]).
  by apply elem_of_nil in Hc.
Defined.

Lemma register_refusals_witness :
  register demo_services 10 "s" (mkCredentialsBody "" "pw") demo_school
    = (Ok ProvideEmailAndPassword, demo_school) ∧
  register demo_services 10 "s" (mkCredentialsBody "T@X" "pw") demo_school
    = (Ok EmailInUse, demo_school).
Proof.
  split.
  - apply (register_refusals demo_services 10 "s" (mkCredentialsBody "" "pw") demo_school).
    left. reflexivity.
  - apply (register_refusals demo_services 10 "s" (mkCredentialsBody "T@X" "pw") demo_school);
      try discriminate.
    exists (Teacher.mk "t@x" "s$secret" ["tok1"]). split; [by left|reflexivity].
Defined.

(** ** POST /attendance/mark for any body *)

Lemma select_session_string q coll :
  select_session (JStr q) coll = Some (QrSession.findOne q coll).
Proof.
  unfold select_session, QrSession.findOne. simpl. f_equal.
  apply list_find_ext. intros x. by rewrite bool_decide_eq_true.
Qed.

Lemma select_record_strings r s date coll :
  select_record (JStr r) (JStr s) date coll = Some (Attendance.findOne r s date coll).
Proof.
  unfold select_record, Attendance.findOne, Attendance.key. simpl. f_equal.
  apply list_find_ext. intros x. rewrite !bool_decide_eq_true. split.
  - by intros (-> & -> & ->).
  - by intros [= -> -> ->].
Qed.

(** On a body of three strings the route is [attendance_mark]. *)
Lemma mark_request_strings rejects now today r s q st :
  mark_request rejects now today (mkMarkRequest (JStr r) (JStr s) (JStr q)) st
  = attendance_mark rejects now today (mkMarkBody r s q) st.
Proof.
  unfold mark_request, attendance_mark, try_catch. simpl.
  rewrite !negb_involutive.
  destruct (falsy r || falsy s || falsy q); [done|].
  rewrite !M_bind_run. unfold query, QrSession_findOne, gets.
  rewrite select_session_string.
  destruct (QrSession.findOne _ _) as [[j session]|]; [|done].
  destruct (_ <? now); [done|]. cbv zeta.
  rewrite !M_bind_run. unfold query, Attendance_findOne, gets.
  rewrite select_record_strings.
  by destruct (Attendance.findOne _ _ _ _) as [[i record]|].
Qed.


Lemma mark_request_missing rejects now today req st :
  negb (truthy (req_regNumber req)) || negb (truthy (req_subject req))
    || negb (truthy (req_qrId req)) = true →
  mark_request rejects now today req st = (Ok MissingData, st).
Proof. intros H. unfold mark_request, try_catch. cbv zeta. by rewrite H. Qed.

(** The route for any body that passes its three tests, with the store
    threaded by hand. *)
Lemma mark_request_run rejects now today req st :
  negb (truthy (req_regNumber req)) || negb (truthy (req_subject req))
    || negb (truthy (req_qrId req)) = false →
  mark_request rejects now today req st =
  match select_session (req_qrId req) (QrSessions st) with
  | None => (Ok ServerError, st)
  | Some None => (Ok InvalidQr, st)
  | Some (Some (_, session)) =>
    if QrSession.expiresAt session <? now then (Ok ExpiredQr, st)
    else after_qr_step rejects today req st
  end.
Proof.
  intros H. unfold mark_request, try_catch. cbv zeta. rewrite H.
  rewrite M_bind_run. unfold query at 1.
  destruct (select_session _ _) as [[[j session]|]|]; [| done | done].
  destruct (_ <? now); [done|]. unfold after_qr_step.
  rewrite M_bind_run. unfold query.
  destruct (select_record _ _ _ _) as [[[i record]|]|]; [| |done].
  - destruct (Attendance.status record); [done|].
    rewrite M_bind_run. unfold Attendance_save.
    destruct (negb (Attendance.valid _)); [done|]. by destruct (rejects _).
  - destruct (as_string (req_regNumber req)) as [r|]; [|done].
    destruct (as_string (req_subject req)) as [s|]; [|done].
    rewrite M_bind_run. unfold Attendance_create.
    destruct (negb (Attendance.valid _)); [done|]. by destruct (rejects _).
Qed.







(** X24: a mark request whose regNumber is a string never changes what the
    history route answers for another registration number, whatever its
    subject and qrId are and whatever the request does; and when it
    answers with a record, that record is in the history of its own
    registration number. *)
Theorem mark_history_frame rejects now today req st regNumber other :
  req_regNumber req = JStr regNumber → other ≠ regNumber →
  attendance_history other (mark_request rejects now today req st).2
    = (Ok (History (sort_by_date_desc (Attendance.find other (Attendances st)))),
       (mark_request rejects now today req st).2) ∧
  ∀ record,
    (mark_request rejects now today req st).1 = Ok (Marked record) →
    ∃ records,
      attendance_history regNumber (mark_request rejects now today req st).2
        = (Ok (History records), (mark_request rejects now today req st).2) ∧
      record ∈ records.
Proof.
  intros Hreg Hother.
  assert (∀ st1 record,
            record ∈ Attendances st1 → Attendance.regNumber record = regNumber →
            ∃ records,
              attendance_history regNumber st1 = (Ok (History records), st1) ∧
              record ∈ records) as Hin.
  { intros st1 record Hrec Hr. eexists. split; [reflexivity|].
    rewrite sort_by_date_desc_perm. unfold Attendance.find.
    by apply list_elem_of_filter. }
  destruct (negb (truthy (req_regNumber req)) || negb (truthy (req_subject req))
            || negb (truthy (req_qrId req))) eqn:Hmiss.
  { rewrite mark_request_missing by done. split; [done|intros ? [=]]. }
  rewrite mark_request_run by done.
  destruct (select_session _ _) as [[[j session]|]|]; [| |]; try (split; [done|intros ? [=]]).
  destruct (_ <? now); [split; [done|intros ? [=]]|].
  unfold after_qr_step, select_record. rewrite Hreg. simpl.
  destruct (as_filter (req_subject req)) as [selects|]; simpl;
    [|split; [done|intros ? [=]]].
  destruct (list_find _ _) as [[i r]|] eqn:Hf.
  - apply list_find_Some in Hf as (Hi & (Hr%bool_decide_eq_true & _ & _) & _).
    destruct (Attendance.status r); [split; [done|intros ? [=]]|].
    destruct (negb (Attendance.valid _)); [split; [done|intros ? [=]]|].
    destruct (rejects _); [split; [done|intros ? [=]]|]. simpl. split.
    + unfold attendance_history. rewrite M_bind_run. unfold gets. simpl.
      rewrite (find_insert_other other _ i r); [done..|congruence|simpl; congruence].
    + intros record [= <-]. apply Hin; [|done]. simpl.
      apply list_elem_of_lookup. exists i. apply list_lookup_insert_eq.
      by eapply lookup_lt_Some.
  - destruct (as_string (req_subject req)) as [s|]; [|split; [done|intros ? [=]]].
    destruct (negb (Attendance.valid _)); [split; [done|intros ? [=]]|].
    destruct (rejects _); [split; [done|intros ? [=]]|]. simpl. split.
    + unfold attendance_history. rewrite M_bind_run. unfold gets, Attendance.find. simpl.
      by rewrite filter_app, filter_cons_False, app_nil_r.
    + intros record [= <-]. apply Hin; [|done]. simpl. apply elem_of_app. right. by left.
Qed.

(** ** POST /login for any body *)

(** On a body of two strings the route is [login]. *)
Lemma login_request_strings sv now email password st :
  login sv now (mkCredentialsBody email password) st
  = match login_request sv now (mkLoginRequest (JStr email) (Some password)) st with
    | (Ok (LoginIssued token _), st') => (Ok (LoginSuccessful token email), st')
    | (Ok (LoginAnswered response), st') => (Ok (Plain response), st')
    | (Throw e, st') => (Throw e, st')
    end.
Proof.
  unfold login, login_request, try_catch. cbv zeta. simpl.
  rewrite !M_bind_run. unfold query, Teacher_findOne, gets. simpl.
  destruct (list_find _ _) as [[id teacher]|]; [|done].
  rewrite M_bind_run. simpl.
  destruct (bcrypt_compare sv password (Teacher.password teacher)); [|done]. simpl.
  rewrite !M_bind_run. by destruct (Teacher_save _ _ _ st) as [[[]|e] st'].
Qed.

(** X14: a refused login stores nothing.  An email that selects no teacher is
    answered 401 whatever the password, a missing one included, and so
    is a selected teacher with a string password that [bcrypt.compare]
    turns down: the same 401.  A selected teacher with no string password
    is answered 500, because [bcrypt.compare] throws; so is an email that
    cannot be cast. *)
Theorem login_refusal sv now req st :
  (select_teacher sv (login_email req) (Teachers st) = Some None →
    login_request sv now req st = (Ok (LoginAnswered InvalidEmailOrPassword401), st)) ∧
  (∀ id teacher password,
    select_teacher sv (login_email req) (Teachers st) = Some (Some (id, teacher)) →
    login_password req = Some password →
    bcrypt_compare sv password (Teacher.password teacher) = false →
    login_request sv now req st = (Ok (LoginAnswered InvalidEmailOrPassword401), st)) ∧
  (∀ id teacher,
    select_teacher sv (login_email req) (Teachers st) = Some (Some (id, teacher)) →
    login_password req = None →
    login_request sv now req st = (Ok (LoginAnswered ServerError), st)) ∧
  (select_teacher sv (login_email req) (Teachers st) = None →
    login_request sv now req st = (Ok (LoginAnswered ServerError), st)).
Proof.
  unfold login_request, try_catch. cbv zeta. rewrite M_bind_run. unfold query.
  split_and!.
  - by intros ->.
  - intros id teacher password -> -> Hc. rewrite M_bind_run. simpl. by rewrite Hc.
  - by intros id teacher -> ->.
  - by intros ->.
Qed.

(** ** The revised theorems at work *)



Lemma mark_history_frame_witness :
  attendance_history "21CS02"
    (mark_request no_faults 2000 "2024-01-01"
       (mkMarkRequest (JStr "21CS01") ne_x (JStr "Math-1-abc")) demo_swept).2
  = (Ok (History (sort_by_date_desc (Attendance.find "21CS02" (Attendances demo_swept)))),
     (mark_request no_faults 2000 "2024-01-01"
        (mkMarkRequest (JStr "21CS01") ne_x (JStr "Math-1-abc")) demo_swept).2).
Proof.
  apply (mark_history_frame no_faults 2000 "2024-01-01"
           (mkMarkRequest (JStr "21CS01") ne_x (JStr "Math-1-abc")) demo_swept
           "21CS01" "21CS02"); [reflexivity|discriminate].
Defined.

Lemma login_refusal_witness :
  login_request demo_services 20 (mkLoginRequest (JStr "nobody@x") None) demo_school
    = (Ok (LoginAnswered InvalidEmailOrPassword401), demo_school) ∧
  login_request demo_services 20 (mkLoginRequest (JStr "t@x") (Some "guess")) demo_school
    = (Ok (LoginAnswered InvalidEmailOrPassword401), demo_school) ∧
  login_request demo_services 20 (mkLoginRequest (JStr "t@x") None) demo_school
    = (Ok (LoginAnswered ServerError), demo_school) ∧
  login_request demo_services 20 (mkLoginRequest ne_x (Some "guess")) demo_school
    = (Ok (LoginAnswered InvalidEmailOrPassword401), demo_school).
Proof.
  split_and!.
  - destruct (login_refusal demo_services 20 (mkLoginRequest (JStr "nobody@x") None)
                demo_school) as (Hnone & _).
    apply Hnone. reflexivity.
  - destruct (login_refusal demo_services 20 (mkLoginRequest (JStr "t@x") (Some "guess"))
                demo_school) as (_ & Hwrong & _).
    apply (Hwrong 0%nat (Teacher.mk "t@x" "s$secret" ["tok1"]) "guess"); reflexivity.
  - destruct (login_refusal demo_services 20 (mkLoginRequest (JStr "t@x") None)
                demo_school) as (_ & _ & Hthrow & _).
    apply (Hthrow 0%nat (Teacher.mk "t@x" "s$secret" ["tok1"])); reflexivity.
  - destruct (login_refusal demo_services 20 (mkLoginRequest ne_x (Some "guess"))
                demo_school) as (_ & Hwrong & _).
    apply (Hwrong 0%nat (Teacher.mk "t@x" "s$secret" ["tok1"]) "guess"); reflexivity.
Defined.
